(** * ppg-js: the windowed PPG signal-quality pipeline

    A shallow embedding of the signal-processing core of the library
    (utils/helpers.js, utils/detrend.js, utils/fft.js, SignalProcessor.js and
    the frame loop of PPGMonitor.js), with JavaScript numbers modelled as
    IEEE-754 binary64 floats, followed by the properties of the design
    document that can be stated on it. *)

From Stdlib Require Import ZArith List Bool String Lia.
From Stdlib Require Import Floats.
Import ListNotations.

Set Warnings "-inexact-float".

(** ** JavaScript numbers *)

(** A JavaScript number is a binary64 float.  The operators [+ - * /] are
    the primitive IEEE operations; the comparisons [<], [>=] and [===] are the
    IEEE comparisons, which are all false on NaN. *)
Module Js.

Definition number := float.

Definition NaN : number := PrimFloat.nan.

(** [a < b], [a >= b], [a > b], [a <= b] and [a === b] on numbers. *)
Definition lt (a b : number) : bool := PrimFloat.ltb a b.
Definition ge (a b : number) : bool := PrimFloat.leb b a.
Definition gt (a b : number) : bool := PrimFloat.ltb b a.
Definition le (a b : number) : bool := PrimFloat.leb a b.
Definition strict_eq (a b : number) : bool := PrimFloat.eqb a b.

(** The integer [z] as a number (rounded to nearest when [|z| > 2^53]). *)
Definition of_Z (z : Z) : number :=
  SF2Prim (binary_normalize prec emax z 0 false).

Definition of_nat (n : nat) : number := of_Z (Z.of_nat n).

(** ToBoolean on a number: [0], [-0] and [NaN] are falsy. *)
Definition truthy (x : number) : bool :=
  negb (PrimFloat.is_nan x || PrimFloat.is_zero x).

(** [Math.min] and [Math.max]: NaN if either argument is NaN, and [-0] is
    smaller than [+0]. *)
Definition Math_min (a b : number) : number :=
  if PrimFloat.is_nan a then a
  else if PrimFloat.is_nan b then b
  else if PrimFloat.ltb a b then a
  else if PrimFloat.ltb b a then b
  else if PrimFloat.get_sign a then a else b.

Definition Math_max (a b : number) : number :=
  if PrimFloat.is_nan a then a
  else if PrimFloat.is_nan b then b
  else if PrimFloat.ltb a b then b
  else if PrimFloat.ltb b a then a
  else if PrimFloat.get_sign a then b else a.

(** [Math.floor], [Math.ceil] and [Math.round], computed exactly on the
    value [(-1)^s * m * 2^e] of a finite float.  [Math.round] rounds ties
    towards plus infinity; a zero result keeps the sign of the argument where
    ECMAScript says so. *)
Definition Math_floor (x : number) : number :=
  match Prim2SF x with
  | S754_finite s m e =>
      if (0 <=? e)%Z then x
      else of_Z (Z.div (cond_Zopp s (Zpos m)) (2 ^ (- e)))
  | _ => x
  end.

Definition Math_ceil (x : number) : number :=
  match Prim2SF x with
  | S754_finite s m e =>
      if (0 <=? e)%Z then x
      else
        let z := (- (Z.div (- cond_Zopp s (Zpos m)) (2 ^ (- e))))%Z in
        if (z =? 0)%Z then (if s then PrimFloat.neg_zero else PrimFloat.zero)
        else of_Z z
  | _ => x
  end.

Definition Math_round (x : number) : number :=
  match Prim2SF x with
  | S754_finite s m e =>
      if (0 <=? e)%Z then x
      else
        let z := Z.div (2 * cond_Zopp s (Zpos m) + 2 ^ (- e)) (2 ^ (1 - e)) in
        if (z =? 0)%Z then (if s then PrimFloat.neg_zero else PrimFloat.zero)
        else of_Z z
  | _ => x
  end.

(** [Math.fround]: the value a [Float32Array] element holds after a store,
    the argument rounded to binary32 (precision 24, emax 128). *)
Definition Math_fround (x : number) : number :=
  match Prim2SF x with
  | S754_finite s m e =>
      SF2Prim (binary_normalize 24 128 (cond_Zopp s (Zpos m)) e s)
  | _ => x
  end.

(** A [Float32Array]: a list of numbers each of which went through
    [Math_fround] when it was stored. *)
Definition Float32Array_from (l : list number) : list number :=
  map Math_fround l.

Definition Float32Array_fill (n : nat) (v : number) : list number :=
  repeat (Math_fround v) n.

(** [a[i] = v] on a typed array: a store out of range is ignored. *)
Fixpoint store (a : list number) (i : nat) (v : number) : list number :=
  match a, i with
  | [], _ => []
  | _ :: t, O => Math_fround v :: t
  | h :: t, S j => h :: store t j v
  end.

End Js.

(** The outcome of a call: a normal return or a thrown error. *)
Inductive JsError : Type :=
| InvalidInputError
| ConfigurationError.

Inductive completion (A : Type) : Type :=
| Normal (v : A)
| Throw (e : JsError).
Arguments Normal {A} v.
Arguments Throw {A} e.

Definition throws {A : Type} (c : completion A) (e : JsError) : Prop :=
  c = Throw e.

Definition returns {A : Type} (c : completion A) : Prop :=
  exists v, c = Normal v.

(** ** utils/helpers.js *)
Module Helpers.
Import Js.
Local Open Scope string_scope.
Local Open Scope float_scope.

Definition sum_numbers (array : list number) : number :=
  fold_left PrimFloat.add array 0.

Definition windowMean (array : list number) : number :=
  let n := List.length array in
  sum_numbers array / of_nat n.

Inductive QualityStatus : Type :=
| Excellent | Good | Fair | Poor | Initializing.

Definition getQualityStatus (snr : number) : QualityStatus :=
  if ge snr 10 then Excellent
  else if ge snr 5 then Good
  else if ge snr 0 then Fair
  else Poor.

Definition generateGuidance (snr pi stability : number) : string :=
  if lt snr 0 then
    if lt pi 0.3 then "Cover camera completely with finger"
    else "Adjust finger placement"
  else if ge snr 0 && lt snr 5 then
    if lt pi 1.0 then "Press finger more firmly"
    else if gt pi 15 then "Reduce finger pressure slightly"
    else if lt stability 0.5 then "Hold finger still"
    else "Adjusting... hold steady"
  else if ge snr 5 && lt snr 10 then "Good signal - hold steady"
  else "Excellent signal!".

End Helpers.


(** ** utils/detrend.js *)
Module Detrend.

(** The arithmetic [detrend] uses: the operations of JavaScript numbers,
    binary64 floats, each rounding its result. *)
Class Arith (T : Type) : Type := {
  zero : T;
  add : T -> T -> T;
  sub : T -> T -> T;
  mul : T -> T -> T;
  div : T -> T -> T;
  of_nat : nat -> T
}.

#[global] Instance float_arith : Arith Js.number := {|
  zero := 0%float;
  add := PrimFloat.add;
  sub := PrimFloat.sub;
  mul := PrimFloat.mul;
  div := PrimFloat.div;
  of_nat := Js.of_nat
|}.

Section Generic.
Context {T : Type} {A : Arith T}.

(** The four running sums of the regression loop. *)
Record sums : Type := mkSums { sx : T; sy : T; sxy : T; sxx : T }.

(** One iteration of [for (let i = 0; i < n; i++) { sx += x[i]; ... }]. *)
Definition accumulate (x y : list T) (s : sums) (i : nat) : sums :=
  let xi := nth i x zero in
  let yi := nth i y zero in
  {| sx := add (sx s) xi;
     sy := add (sy s) yi;
     sxy := add (sxy s) (mul xi yi);
     sxx := add (sxx s) (mul xi xi) |}.

Definition regression_sums (x y : list T) (k : nat) : sums :=
  fold_left (accumulate x y) (seq 0 k)
    {| sx := zero; sy := zero; sxy := zero; sxx := zero |}.

Definition detrend (y : list T) : list T :=
  let n := List.length y in
  (* for (let i = 0; i <= n; i++) x.push(i) *)
  let x := map of_nat (seq 0 (S n)) in
  let s := regression_sums x y n in
  let mx := div (sx s) (of_nat n) in
  let my := div (sy s) (of_nat n) in
  let xx := sub (mul (of_nat n) (sxx s)) (mul (sx s) (sx s)) in
  let xy := sub (mul (of_nat n) (sxy s)) (mul (sx s) (sy s)) in
  let slope := div xy xx in
  let intercept := sub my (mul slope mx) in
  map (fun i => sub (nth i y zero) (add intercept (mul slope (of_nat i))))
      (seq 0 n).

End Generic.

(** A call of [detrend] on an array of numbers.  The body has no [throw]
    and every array read is in range, so the call always returns. *)
Definition call (y : list Js.number) : completion (list Js.number) :=
  Normal (detrend y).

End Detrend.

(** ** The runtime around the library

    Two things the code calls are not part of the repository: the FFT of
    the fft.js package and [Math.log10].  [fft_transform size padded] is the
    interleaved complex array [out] that [fft.transform(out,
    fft.toComplexArray(padded))] fills for [new FFT(size)]. *)
Class Runtime : Type := {
  fft_transform : nat -> list Js.number -> list Js.number;
  Math_log10 : Js.number -> Js.number
}.

(** [new FFT(size)] throws unless [size] is a power of two bigger than 1:
    the constructor of fft.js tests
    [size <= 1 || (size & (size - 1)) !== 0].  [fft_transform] is the
    transform on the sizes the constructor accepts; what a call of
    [computeFFT], [process] or [computeFrame] returns is stated for those
    sizes. *)
Definition fftAccepts (size : nat) : bool :=
  ((1 <? size) && (Nat.land size (size - 1) =? 0))%nat.

(** ** utils/fft.js *)
Module Fft.
Import Js.
Local Open Scope float_scope.

Record FFTResult : Type := mkFFTResult {
  psd : list number;
  fftSize : nat;
  sampleRate : number;
  freqResolution : number
}.

(** [paddedSignal]: a zeroed [Float32Array(fftSize)] into which the first
    [min(n, fftSize)] samples are stored. *)
Definition padSignal (signal : list number) (fftSize : nat) : list number :=
  fold_left (fun padded i => store padded i (nth i signal NaN))
    (seq 0 (Nat.min (List.length signal) fftSize))
    (repeat 0 fftSize).

(** [psd[i] = real * real + imag * imag] for [i < fftSize / 2], stored in a
    [Float32Array]. *)
Definition powerSpectrum (out : list number) (fftSize : nat) : list number :=
  map (fun i =>
         let real := nth (2 * i) out NaN in
         let imag := nth (2 * i + 1) out NaN in
         Math_fround (real * real + imag * imag))
      (seq 0 (fftSize / 2)).

Definition computeFFT {RT : Runtime}
    (signal : list number) (fftSize : nat) (sampleRate : number) : FFTResult :=
  let paddedSignal := padSignal signal fftSize in
  let out := fft_transform fftSize paddedSignal in
  {| psd := powerSpectrum out fftSize;
     fftSize := fftSize;
     sampleRate := sampleRate;
     freqResolution := sampleRate / of_nat fftSize |}.

Record SNRResult : Type := mkSNRResult {
  snr_dB : number;
  peakIdx : nat;
  peakFrequency : number;
  signalPower : number;
  noisePower : number;
  totalPower : number
}.

(** The accumulators of the band loop. *)
Record band : Type := mkBand {
  b_signalPower : number;
  b_totalPower : number;
  b_maxPower : number;
  b_peakIdx : nat
}.

Definition inBand (low high : number) (i : nat) : bool :=
  ge (of_nat i) low && le (of_nat i) high.

(** One iteration of [for (let i = 1; i < psd.length; i++)]. *)
Definition bandStep (psd : list number) (low high : number)
    (b : band) (i : nat) : band :=
  let p := nth i psd NaN in
  let total := b_totalPower b + p in
  if inBand low high i then
    let signal := b_signalPower b + p in
    if gt p (b_maxPower b)
    then {| b_signalPower := signal; b_totalPower := total;
            b_maxPower := p; b_peakIdx := i |}
    else {| b_signalPower := signal; b_totalPower := total;
            b_maxPower := b_maxPower b; b_peakIdx := b_peakIdx b |}
  else {| b_signalPower := b_signalPower b; b_totalPower := total;
          b_maxPower := b_maxPower b; b_peakIdx := b_peakIdx b |}.

(** [signalPower = 0], [totalPower = 0], [maxPower = 0], [peakIdx = 0]. *)
Definition initialBand : band :=
  {| b_signalPower := 0; b_totalPower := 0; b_maxPower := 0; b_peakIdx := 0 |}.

Definition bandLoop (psd : list number) (low high : number) : band :=
  fold_left (bandStep psd low high) (seq 1 (List.length psd - 1)) initialBand.

Definition epsilon : number := 1e-10.

Definition calculateSNRFromPSD {RT : Runtime}
    (psd : list number) (freqResolution cardiacBandLow cardiacBandHigh : number)
    : SNRResult :=
  let low := Math_floor (cardiacBandLow / freqResolution) in
  let high := Math_ceil (cardiacBandHigh / freqResolution) in
  let b := bandLoop psd low high in
  let signalPower := b_signalPower b in
  let totalPower := b_totalPower b in
  let noisePower := totalPower - signalPower in
  let snr_dB :=
    10 * Math_log10 ((signalPower + epsilon) / (noisePower + epsilon)) in
  let peakFrequency := of_nat (b_peakIdx b) * freqResolution in
  {| snr_dB := snr_dB;
     peakIdx := b_peakIdx b;
     peakFrequency := peakFrequency;
     signalPower := signalPower;
     noisePower := noisePower;
     totalPower := totalPower |}.

End Fft.

(** ** SignalProcessor.js *)

(** The record [process] returns. *)
Module QualityMetrics.
Record t : Type := mk {
  snr_dB : Js.number;
  perfusionIndex : Js.number;
  heartRate : Js.number;
  ibi : Js.number;
  signalStability : Js.number;
  qualityStatus : Helpers.QualityStatus;
  guidanceMessage : string;
  qualityFrameCount : nat;
  signalPower : Js.number;
  noisePower : Js.number;
  peakFrequency : Js.number
}.
End QualityMetrics.

Module SignalProcessor.
Import Js Helpers.
Local Open Scope float_scope.

(** The [options] argument of the constructor; [None] is an absent
    property.  Window length and FFT size are non-negative integers. *)
Record Options : Type := mkOptions {
  o_windowLength : option nat;
  o_sampleRate : option number;
  o_cardiacBandLow : option number;
  o_cardiacBandHigh : option number;
  o_fftSize : option nat
}.

Definition noOptions : Options :=
  {| o_windowLength := None; o_sampleRate := None;
     o_cardiacBandLow := None; o_cardiacBandHigh := None;
     o_fftSize := None |}.

(** [v || d] on an optional count and on an optional number. *)
Definition or_nat (v : option nat) (d : nat) : nat :=
  match v with
  | Some (S k) => S k
  | _ => d
  end.

Definition or_number (v : option number) (d : number) : number :=
  match v with
  | Some x => if truthy x then x else d
  | None => d
  end.

(** The fields of a [SignalProcessor] object. *)
Record t : Type := mk {
  windowLength : nat;
  sampleRate : number;
  cardiacBandLow : number;
  cardiacBandHigh : number;
  fftSize : nat;
  previousVariance : number;
  qualityFrameCount : nat
}.

Definition constructor (options : Options) : t :=
  {| windowLength := or_nat (o_windowLength options) 300;
     sampleRate := or_number (o_sampleRate options) 60;
     cardiacBandLow := or_number (o_cardiacBandLow options) 0.75;
     cardiacBandHigh := or_number (o_cardiacBandHigh options) 4.0;
     fftSize := or_nat (o_fftSize options) 256;
     previousVariance := 0;
     qualityFrameCount := 0 |}.

(** [new SignalProcessor(options)]: the constructor body is seven
    assignments, none of which can throw. *)
Definition new (options : Options) : completion t :=
  Normal (constructor options).

Definition set_previousVariance (sp : t) (v : number) : t :=
  {| windowLength := windowLength sp;
     sampleRate := sampleRate sp;
     cardiacBandLow := cardiacBandLow sp;
     cardiacBandHigh := cardiacBandHigh sp;
     fftSize := fftSize sp;
     previousVariance := v;
     qualityFrameCount := qualityFrameCount sp |}.

Definition set_qualityFrameCount (sp : t) (c : nat) : t :=
  {| windowLength := windowLength sp;
     sampleRate := sampleRate sp;
     cardiacBandLow := cardiacBandLow sp;
     cardiacBandHigh := cardiacBandHigh sp;
     fftSize := fftSize sp;
     previousVariance := previousVariance sp;
     qualityFrameCount := c |}.

Record PIResult : Type := mkPIResult { pi : number; variance : number }.

Definition calculatePerfusionIndex (rawSignal detrendedSignal : list number)
    : PIResult :=
  let n := List.length rawSignal in
  let sum := fold_left (fun s i => s + nth i rawSignal NaN) (seq 0 n) 0 in
  let dc := sum / of_nat n in
  let variance :=
    fold_left
      (fun v i => v + nth i detrendedSignal NaN * nth i detrendedSignal NaN)
      (seq 0 n) 0 in
  let variance := variance / of_nat n in
  let ac := PrimFloat.sqrt variance in
  {| pi := (ac / (dc + 1e-10)) * 100; variance := variance |}.

(** [calculateStability] reads and writes [this.previousVariance]: the
    result is the returned ratio and the updated object. *)
Definition calculateStability (sp : t) (currentVariance : number)
    : number * t :=
  if strict_eq (previousVariance sp) 0 then
    (1.0, set_previousVariance sp currentVariance)
  else
    let varianceRatio :=
      Math_min currentVariance (previousVariance sp) /
      (Math_max currentVariance (previousVariance sp) + 1e-10) in
    (varianceRatio, set_previousVariance sp currentVariance).

Definition process {RT : Runtime} (sp : t)
    (rawSignal detrendedSignal : list number) : QualityMetrics.t * t :=
  let fftResult := Fft.computeFFT detrendedSignal (fftSize sp) (sampleRate sp) in
  let snrResult :=
    Fft.calculateSNRFromPSD (Fft.psd fftResult) (Fft.freqResolution fftResult)
      (cardiacBandLow sp) (cardiacBandHigh sp) in
  let heartRate := Fft.peakFrequency snrResult * 60 in
  let ibi :=
    if gt heartRate 0 && lt heartRate 300
    then Math_round (60000 / heartRate) else 0 in
  let piResult := calculatePerfusionIndex rawSignal detrendedSignal in
  let '(stability, sp1) := calculateStability sp (variance piResult) in
  let qualityStatus := getQualityStatus (Fft.snr_dB snrResult) in
  let guidanceMessage :=
    generateGuidance (Fft.snr_dB snrResult) (pi piResult) stability in
  let sp2 :=
    if ge (Fft.snr_dB snrResult) 5
    then set_qualityFrameCount sp1 (qualityFrameCount sp1 + windowLength sp1)%nat
    else sp1 in
  ({| QualityMetrics.snr_dB := Fft.snr_dB snrResult;
      QualityMetrics.perfusionIndex := pi piResult;
      QualityMetrics.heartRate := Math_round heartRate;
      QualityMetrics.ibi := ibi;
      QualityMetrics.signalStability := stability;
      QualityMetrics.qualityStatus := qualityStatus;
      QualityMetrics.guidanceMessage := guidanceMessage;
      QualityMetrics.qualityFrameCount := qualityFrameCount sp2;
      QualityMetrics.signalPower := Fft.signalPower snrResult;
      QualityMetrics.noisePower := Fft.noisePower snrResult;
      QualityMetrics.peakFrequency := Fft.peakFrequency snrResult |},
   sp2).

Definition reset (sp : t) : t :=
  set_qualityFrameCount (set_previousVariance sp 0) 0.

End SignalProcessor.

(** ** PPGMonitor.js: the frame loop *)
Module PPGMonitor.
Import Js Helpers.
Local Open Scope nat_scope.

(** The fields of the monitor that [computeFrame] reads and writes.
    [windowLength] is [options.signal.windowLength].  The counters are
    integers far below [2^53], where the arithmetic of numbers is the
    arithmetic of integers. *)
Record t : Type := mk {
  windowLength : nat;
  signalProcessor : SignalProcessor.t;
  acdc : list number;
  ac : list number;
  frameCount : nat;
  nFrame : nat;
  isSignal : nat;
  acFrame : number;
  acWindow : number;
  currentMetrics : QualityMetrics.t
}.

(** The callbacks a call of [computeFrame] makes, in order (rendering and
    the wall-clock [time] of a signal update are left out). *)
Inductive event : Type :=
| QualityUpdate (metrics : QualityMetrics.t)
| SignalUpdate (value : number) (isProcessing : bool)
| Frame (frameCount : nat) (xMean acFrame : number).

Definition DURATION : nat := 100.

(** [Math.floor(windowNum / 100) % 2 === 0]. *)
Definition processingWindow (windowNum : nat) : bool :=
  (windowNum / 100) mod 2 =? 0.

(** What the body of [if (nFrame % windowLength === 0)] leaves in
    [isSignal], [ac], [acWindow], [currentMetrics], the processor, and the
    quality callback it makes. *)
Definition windowBoundary {RT : Runtime} (m : t) (acdc' : list number)
    : nat * list number * number * QualityMetrics.t * SignalProcessor.t
      * list event :=
  let windowNum := nFrame m / windowLength m in
  if processingWindow windowNum then
    let detrendedArray := Detrend.detrend acdc' in
    let ac' := Float32Array_from detrendedArray in
    let acWindow' := windowMean ac' in
    let '(metrics, sp') :=
      SignalProcessor.process (signalProcessor m) acdc' ac' in
    (1, ac', acWindow', metrics, sp', [QualityUpdate metrics])
  else
    (0, Float32Array_fill (windowLength m) (acWindow m), acWindow m,
     currentMetrics m, signalProcessor m, []).

(** One call of [computeFrame]; [xMean] is the inverted, normalised red
    mean of the frame just drawn.  A read outside [ac] gives
    [undefined], held here as NaN. *)
Definition computeFrame {RT : Runtime} (m : t) (xMean : number)
    : t * list event :=
  if DURATION <? nFrame m then
    let acdc' := store (acdc m) (nFrame m mod windowLength m) xMean in
    let '(isSignal', ac', acWindow', metrics', sp', quality) :=
      if nFrame m mod windowLength m =? 0
      then windowBoundary m acdc'
      else (isSignal m, ac m, acWindow m, currentMetrics m,
            signalProcessor m, []) in
    let acFrame' := nth (nFrame m mod windowLength m) ac' NaN in
    ({| windowLength := windowLength m;
        signalProcessor := sp';
        acdc := acdc';
        ac := ac';
        frameCount := S (frameCount m);
        nFrame := S (nFrame m);
        isSignal := isSignal';
        acFrame := acFrame';
        acWindow := acWindow';
        currentMetrics := metrics' |},
     quality ++ [SignalUpdate acFrame' (isSignal' =? 1);
                 Frame (frameCount m) xMean acFrame'])
  else
    ({| windowLength := windowLength m;
        signalProcessor := signalProcessor m;
        acdc := acdc m;
        ac := ac m;
        frameCount := frameCount m;
        nFrame := S (nFrame m);
        isSignal := isSignal m;
        acFrame := acFrame m;
        acWindow := acWindow m;
        currentMetrics := currentMetrics m |},
     []).

End PPGMonitor.

(** ** A small concrete runtime

    For size 4 the discrete Fourier transform is a single radix-4
    butterfly: its twiddle factors are [1], [-i], [-1] and [i], so it takes
    additions and subtractions only.  [dft4] is that butterfly on a real
    input (the imaginary parts of the input are [0]).  [log10_table] is
    [Math.log10] on a few powers of ten, where its value is exact.  Both
    serve to run the pipeline on concrete windows. *)
Module Fixture.
Import Js.
Local Open Scope string_scope.
Local Open Scope float_scope.

Definition dft4 (x : list number) : list number :=
  match x with
  | [Ar; Br; Cr; Dr] =>
      let T0r := Ar + Cr in let T0i := 0 + 0 in
      let T1r := Ar - Cr in let T1i := 0 - 0 in
      let T2r := Br + Dr in let T2i := 0 + 0 in
      let T3r := Br - Dr in let T3i := 0 - 0 in
      [ T0r + T2r; T0i + T2i;
        T1r + T3i; T1i - T3r;
        T0r - T2r; T0i - T2i;
        T1r - T3i; T1i + T3r ]
  | _ => []
  end.

Definition log10_table (x : number) : number :=
  if strict_eq x 1 then 0
  else if strict_eq x 10 then 1
  else if strict_eq x 100 then 2
  else if strict_eq x 1000 then 3
  else NaN.

Definition runtime : Runtime :=
  {| fft_transform := fun size padded =>
       if (size =? 4)%nat then dft4 padded else [];
     Math_log10 := log10_table |}.

(** A processor for windows of four samples at 4.5 Hz, and a monitor
    around it at frame [n]; [startMetrics] is the record a monitor starts
    with (the fields the constructor leaves out are shown as [0]). *)
Definition processor : SignalProcessor.t :=
  SignalProcessor.constructor
    {| SignalProcessor.o_windowLength := Some 4%nat;
       SignalProcessor.o_sampleRate := Some 4.5;
       SignalProcessor.o_cardiacBandLow := None;
       SignalProcessor.o_cardiacBandHigh := None;
       SignalProcessor.o_fftSize := Some 4%nat |}.

Definition startMetrics : QualityMetrics.t :=
  {| QualityMetrics.snr_dB := 0;
     QualityMetrics.perfusionIndex := 0;
     QualityMetrics.heartRate := 0;
     QualityMetrics.ibi := 0;
     QualityMetrics.signalStability := 0;
     QualityMetrics.qualityStatus := Helpers.Initializing;
     QualityMetrics.guidanceMessage := "Call start() to begin";
     QualityMetrics.qualityFrameCount := 0;
     QualityMetrics.signalPower := 0;
     QualityMetrics.noisePower := 0;
     QualityMetrics.peakFrequency := 0 |}.

Definition monitorAt (n : nat) : PPGMonitor.t :=
  {| PPGMonitor.windowLength := 4;
     PPGMonitor.signalProcessor := processor;
     PPGMonitor.acdc := Float32Array_fill 4 0.5;
     PPGMonitor.ac := Float32Array_fill 4 0.5;
     PPGMonitor.frameCount := (n - 101)%nat;
     PPGMonitor.nFrame := n;
     PPGMonitor.isSignal := 0;
     PPGMonitor.acFrame := 0.008;
     PPGMonitor.acWindow := 0.008;
     PPGMonitor.currentMetrics := startMetrics |}.

End Fixture.

(** ** Inputs and readings used by the statements *)

(** The linear window [y_i = a + b * i], [i = 0 .. n-1], as numbers, and
    the coefficients [j / 8] for [j = -8 .. 8]: the multiples of [1/8]
    between [-1] and [1], all exact in binary64. *)
Definition linear (a b : Js.number) (n : nat) : list Js.number :=
  map (fun i => (a + b * Js.of_nat i)%float) (seq 0 n).




(** The bins [1 .. psd.length - 1] of a spectrum, those of them inside the
    band [[low, high]], and the sum of the power in a list of bins, added
    from the lowest bin up. *)
Definition spectrumBins (psd : list Js.number) : list nat :=
  seq 1 (List.length psd - 1).

Definition bandBins (psd : list Js.number) (low high : Js.number) : list nat :=
  filter (Fft.inBand low high) (spectrumBins psd).

Definition sumBins (psd : list Js.number) (bins : list nat) : Js.number :=
  fold_left (fun s i => PrimFloat.add s (nth i psd Js.NaN)) bins 0%float.

(** The phase of the duty cycle a monitor is in: [isSignal] is [1] while
    windows are processed and [0] while the output is held. *)
Inductive SchedulerState : Type := Active | Hold.

Definition schedulerState (m : PPGMonitor.t) : SchedulerState :=
  if (PPGMonitor.isSignal m =? 1)%nat then Active else Hold.

(** ** utils/helpers.js: the monitor options

    [createDefaultOptions] merges what the caller gives over the defaults,
    group by group: [{ ...defaults.ui, ...(userOptions.ui || {}) }].  A
    group the caller gives is a record of optional properties, [None] being
    a property that is absent; the callbacks are [null] unless given. *)
Module Defaults.
Import Js.
Local Open Scope string_scope.
Local Open Scope float_scope.

Record Ui : Type := mkUi {
  enabled : bool;
  showVideo : bool;
  showMetrics : bool;
  showChart : bool;
  theme : string
}.

Record UiGiven : Type := mkUiGiven {
  g_enabled : option bool;
  g_showVideo : option bool;
  g_showMetrics : option bool;
  g_showChart : option bool;
  g_theme : option string
}.

Record Signal : Type := mkSignal {
  windowLength : nat;
  sampleRate : number;
  cardiacBandLow : number;
  cardiacBandHigh : number;
  fftSize : nat
}.

Record FrameRate : Type := mkFrameRate { ideal : number }.

Record Camera : Type := mkCamera {
  maxWidth : number;
  maxHeight : number;
  frameRate : FrameRate;
  facingMode : string
}.

Record CameraGiven : Type := mkCameraGiven {
  g_maxWidth : option number;
  g_maxHeight : option number;
  g_frameRate : option FrameRate;
  g_facingMode : option string
}.

Section Handlers.
(** The type of the callback functions. *)
Context {Handler : Type}.

Record UserOptions : Type := mkUserOptions {
  u_ui : option UiGiven;
  u_signal : option SignalProcessor.Options;
  u_camera : option CameraGiven;
  u_onFrame : option Handler;
  u_onQualityUpdate : option Handler;
  u_onSignalUpdate : option Handler;
  u_onError : option Handler;
  u_onReady : option Handler
}.

Record Options : Type := mkOptions {
  ui : Ui;
  signal : Signal;
  camera : Camera;
  onFrame : option Handler;
  onQualityUpdate : option Handler;
  onSignalUpdate : option Handler;
  onError : option Handler;
  onReady : option Handler
}.

(** A property of the spread [{ ...defaults, ...given }]. *)
Definition spread {V : Type} (default : V) (given : option V) : V :=
  match given with
  | Some v => v
  | None => default
  end.

Definition createDefaultOptions (userOptions : UserOptions) : Options :=
  let givenUi :=
    match u_ui userOptions with
    | Some g => g
    | None => {| g_enabled := None; g_showVideo := None;
                 g_showMetrics := None; g_showChart := None;
                 g_theme := None |}
    end in
  let givenSignal :=
    match u_signal userOptions with
    | Some g => g
    | None => SignalProcessor.noOptions
    end in
  let givenCamera :=
    match u_camera userOptions with
    | Some g => g
    | None => {| g_maxWidth := None; g_maxHeight := None;
                 g_frameRate := None; g_facingMode := None |}
    end in
  {| ui :=
       {| enabled := spread true (g_enabled givenUi);
          showVideo := spread true (g_showVideo givenUi);
          showMetrics := spread true (g_showMetrics givenUi);
          showChart := spread true (g_showChart givenUi);
          theme := spread "light" (g_theme givenUi) |};
     signal :=
       {| windowLength :=
            spread 300%nat (SignalProcessor.o_windowLength givenSignal);
          sampleRate := spread 60 (SignalProcessor.o_sampleRate givenSignal);
          cardiacBandLow :=
            spread 0.75 (SignalProcessor.o_cardiacBandLow givenSignal);
          cardiacBandHigh :=
            spread 4.0 (SignalProcessor.o_cardiacBandHigh givenSignal);
          fftSize := spread 256%nat (SignalProcessor.o_fftSize givenSignal) |};
     camera :=
       {| maxWidth := spread 1280 (g_maxWidth givenCamera);
          maxHeight := spread 720 (g_maxHeight givenCamera);
          frameRate := spread {| ideal := 60 |} (g_frameRate givenCamera);
          facingMode := spread "environment" (g_facingMode givenCamera) |};
     onFrame := u_onFrame userOptions;
     onQualityUpdate := u_onQualityUpdate userOptions;
     onSignalUpdate := u_onSignalUpdate userOptions;
     onError := u_onError userOptions;
     onReady := u_onReady userOptions |}.

(** Merged options handed back as what a caller gives: every property is
    present. *)
Definition asGiven (o : Options) : UserOptions :=
  {| u_ui := Some {| g_enabled := Some (enabled (ui o));
                     g_showVideo := Some (showVideo (ui o));
                     g_showMetrics := Some (showMetrics (ui o));
                     g_showChart := Some (showChart (ui o));
                     g_theme := Some (theme (ui o)) |};
     u_signal := Some
       {| SignalProcessor.o_windowLength := Some (windowLength (signal o));
          SignalProcessor.o_sampleRate := Some (sampleRate (signal o));
          SignalProcessor.o_cardiacBandLow := Some (cardiacBandLow (signal o));
          SignalProcessor.o_cardiacBandHigh := Some (cardiacBandHigh (signal o));
          SignalProcessor.o_fftSize := Some (fftSize (signal o)) |};
     u_camera := Some {| g_maxWidth := Some (maxWidth (camera o));
                         g_maxHeight := Some (maxHeight (camera o));
                         g_frameRate := Some (frameRate (camera o));
                         g_facingMode := Some (facingMode (camera o)) |};
     u_onFrame := onFrame o;
     u_onQualityUpdate := onQualityUpdate o;
     u_onSignalUpdate := onSignalUpdate o;
     u_onError := onError o;
     u_onReady := onReady o |}.

(** [new SignalProcessor(this.options.signal)], the processor the monitor
    builds from the merged options (PPGMonitor.js, constructor). *)
Definition monitorProcessor (userOptions : UserOptions) : SignalProcessor.t :=
  let s := signal (createDefaultOptions userOptions) in
  SignalProcessor.constructor
    {| SignalProcessor.o_windowLength := Some (windowLength s);
       SignalProcessor.o_sampleRate := Some (sampleRate s);
       SignalProcessor.o_cardiacBandLow := Some (cardiacBandLow s);
       SignalProcessor.o_cardiacBandHigh := Some (cardiacBandHigh s);
       SignalProcessor.o_fftSize := Some (fftSize s) |}.

End Handlers.
Arguments UserOptions : clear implicits.
Arguments Options : clear implicits.

End Defaults.

(** ** Successive calls

    [run m xs] is the monitor after [computeFrame] has been called once for
    each sample of [xs], in order, with the callbacks made on the way;
    [processAll sp windows] is the processor after [process] has been called
    on each (raw, detrended) pair, with the records returned. *)
Fixpoint run {RT : Runtime} (m : PPGMonitor.t) (xs : list Js.number)
    : PPGMonitor.t * list PPGMonitor.event :=
  match xs with
  | [] => (m, [])
  | x :: rest =>
      let '(m1, events1) := PPGMonitor.computeFrame m x in
      let '(m2, events2) := run m1 rest in
      (m2, events1 ++ events2)
  end.

Fixpoint processAll {RT : Runtime} (sp : SignalProcessor.t)
    (windows : list (list Js.number * list Js.number))
    : list QualityMetrics.t * SignalProcessor.t :=
  match windows with
  | [] => ([], sp)
  | (rawSignal, detrendedSignal) :: rest =>
      let '(metrics, sp1) :=
        SignalProcessor.process sp rawSignal detrendedSignal in
      let '(later, sp2) := processAll sp1 rest in
      (metrics :: later, sp2)
  end.

(** The status of a record is Good or Excellent. *)
Definition goodQuality (metrics : QualityMetrics.t) : bool :=
  match QualityMetrics.qualityStatus metrics with
  | Helpers.Excellent | Helpers.Good => true
  | _ => false
  end.

(** A callback is a quality update. *)
Definition isQualityUpdate (e : PPGMonitor.event) : bool :=
  match e with
  | PPGMonitor.QualityUpdate _ => true
  | _ => false
  end.


(** The frame counts that the frame callbacks of a run carry, in order,
    and whether a callback is a signal update. *)
Definition frameCounts (events : list PPGMonitor.event) : list nat :=
  flat_map (fun e => match e with
                     | PPGMonitor.Frame c _ _ => [c]
                     | _ => []
                     end) events.

Definition isSignalUpdate (e : PPGMonitor.event) : bool :=
  match e with
  | PPGMonitor.SignalUpdate _ _ => true
  | _ => false
  end.

(** * Properties *)

(** ** Facts about floats

    The comparisons and operations of primitive floats are specified on
    their [spec_float] images; the facts below are the ones the case
    distinctions of the code rely on. *)
Module FloatFacts.

Ltac fold_pos_compare :=
  repeat match goal with
    | |- context [PosDef.Pos.compare_cont Eq ?a ?b] =>
        change (PosDef.Pos.compare_cont Eq a b) with (Pos.compare a b)
    end.

Lemma SFcompare_antisym (x y : spec_float) :
  SFcompare y x = option_map CompOpp (SFcompare x y).
Proof.
  destruct x as [sx|sx| |sx mx ex], y as [sy|sy| |sy my ey]; simpl;
    try reflexivity;
    try (destruct sx; reflexivity); try (destruct sy; reflexivity);
    try (destruct sx, sy; reflexivity).
  destruct sx, sy; simpl; try reflexivity; fold_pos_compare;
    rewrite (Z.compare_antisym ex ey);
    destruct (Z.compare ex ey) eqn:E; simpl; try reflexivity;
    rewrite (Pos.compare_antisym mx my);
    destruct (Pos.compare mx my); reflexivity.
Qed.

Ltac close_compare_case :=
  simpl; try discriminate; try reflexivity; try lia;
  try (intros _ [?|?]; discriminate);
  try (intros ? _; discriminate).

Lemma SFcompare_lt_le_trans (x y z : spec_float) :
  SFcompare x y = Some Lt ->
  (SFcompare y z = Some Lt \/ SFcompare y z = Some Eq) ->
  SFcompare x z = Some Lt.
Proof.
  destruct x as [sx|sx| |sx mx ex], y as [sy|sy| |sy my ey],
           z as [sz|sz| |sz mz ez]; simpl;
    try discriminate; try (intros _ [?|?]; discriminate);
    repeat match goal with s : bool |- _ => destruct s end;
    close_compare_case; fold_pos_compare;
    destruct (Z.compare_spec ex ey), (Z.compare_spec ey ez),
      (Z.compare_spec ex ez); close_compare_case;
    destruct (Pos.compare_spec mx my), (Pos.compare_spec my mz),
      (Pos.compare_spec mx mz); close_compare_case.
Qed.

Local Open Scope float_scope.

(** [a < b] excludes [b <= a]. *)
Lemma ltb_not_leb (a b : float) : (a <? b) = true -> (b <=? a) = false.
Proof.
  rewrite ltb_spec, leb_spec. unfold SFltb, SFleb.
  rewrite (SFcompare_antisym (Prim2SF a) (Prim2SF b)).
  destruct (SFcompare (Prim2SF a) (Prim2SF b)) as [[]|]; simpl;
    congruence.
Qed.

(** [a < b] excludes [b === a]. *)
Lemma ltb_not_eqb (a b : float) : (a <? b) = true -> (b =? a) = false.
Proof.
  rewrite ltb_spec, eqb_spec. unfold SFltb, SFeqb.
  rewrite (SFcompare_antisym (Prim2SF a) (Prim2SF b)).
  destruct (SFcompare (Prim2SF a) (Prim2SF b)) as [[]|]; simpl;
    congruence.
Qed.

Lemma ltb_leb_trans (a b c : float) :
  (a <? b) = true -> (b <=? c) = true -> (a <? c) = true.
Proof.
  rewrite !ltb_spec, leb_spec. unfold SFltb, SFleb. intros H1 H2.
  rewrite (SFcompare_lt_le_trans (Prim2SF a) (Prim2SF b) (Prim2SF c)).
  - reflexivity.
  - destruct (SFcompare (Prim2SF a) (Prim2SF b)) as [[]|];
      congruence.
  - destruct (SFcompare (Prim2SF b) (Prim2SF c)) as [[]|];
      auto; discriminate.
Qed.

(** A float below [b] is not at or above any [c >= b]. *)
Lemma ltb_not_leb_above (a b c : float) :
  (a <? b) = true -> (b <=? c) = true -> (c <=? a) = false.
Proof.
  intros H1 H2. apply ltb_not_leb. exact (ltb_leb_trans a b c H1 H2).
Qed.

(** [0 * v] is a zero, or NaN when [v] is infinite or NaN. *)
Lemma mul_zero_l_cases (v : float) :
  0 * v = 0 \/ 0 * v = -0 \/ 0 * v = nan.
Proof.
  rewrite <- (SF2Prim_Prim2SF (0 * v)), mul_spec.
  change (Prim2SF 0) with (S754_zero false).
  destruct (Prim2SF v) as [s|s| |s m e]; try destruct s; cbn; auto.
Qed.

Lemma sub_nan_r (u : float) : u - nan = nan.
Proof.
  rewrite <- (SF2Prim_Prim2SF (u - nan)), sub_spec.
  change (Prim2SF nan) with S754_nan.
  destruct (Prim2SF u) as [s|s| |s m e]; reflexivity.
Qed.

(** A float that compares equal to [0] is one of the two zeros. *)
Lemma eqb_zero_cases (x : float) : (x =? 0) = true -> x = 0 \/ x = -0.
Proof.
  rewrite eqb_spec. change (Prim2SF 0) with (S754_zero false).
  intros H. rewrite <- (SF2Prim_Prim2SF x).
  destruct (Prim2SF x) as [s|s| |s m e]; try destruct s;
    try discriminate H; cbn; auto.
Qed.

End FloatFacts.


Import Js Helpers.

(** ** Classification and guidance *)
Section Classification.
Local Open Scope string_scope.
Local Open Scope float_scope.

(** A number for which [isNaN] holds is the NaN. *)
Lemma is_nan_eq (x : number) : PrimFloat.is_nan x = true -> x = NaN.
Proof.
  intros H. rewrite <- (SF2Prim_Prim2SF x). unfold Prim2SF.
  rewrite H. reflexivity.
Qed.

(** C8: [getQualityStatus] maps [snr >= 10] to Excellent, [5 <= snr < 10]
    to Good, [0 <= snr < 5] to Fair and [snr < 0] to Poor; at the points
    10, 9.999, 5, 4.999, 0 and -0.001 it gives Excellent, Good, Good, Fair,
    Fair and Poor. *)
Theorem getQualityStatus_boundaries (snr : number) :
  (ge snr 10 = true -> getQualityStatus snr = Excellent) /\
  (ge snr 5 = true -> lt snr 10 = true -> getQualityStatus snr = Good) /\
  (ge snr 0 = true -> lt snr 5 = true -> getQualityStatus snr = Fair) /\
  (lt snr 0 = true -> getQualityStatus snr = Poor) /\
  getQualityStatus 10 = Excellent /\
  getQualityStatus 9.999 = Good /\
  getQualityStatus 5 = Good /\
  getQualityStatus 4.999 = Fair /\
  getQualityStatus 0 = Fair /\
  getQualityStatus (-0.001) = Poor.
Proof.
  unfold getQualityStatus, ge, lt.
  repeat split; try reflexivity.
  - intros H. now rewrite H.
  - intros H5 H10.
    rewrite (FloatFacts.ltb_not_leb _ _ H10). now rewrite H5.
  - intros H0 H5.
    rewrite (FloatFacts.ltb_not_leb_above snr 5 10 H5 eq_refl).
    rewrite (FloatFacts.ltb_not_leb _ _ H5). now rewrite H0.
  - intros H0.
    rewrite (FloatFacts.ltb_not_leb_above snr 0 10 H0 eq_refl).
    rewrite (FloatFacts.ltb_not_leb_above snr 0 5 H0 eq_refl).
    now rewrite (FloatFacts.ltb_not_leb _ _ H0).
Qed.

Lemma getQualityStatus_boundaries_witness :
  getQualityStatus 12.5 = Excellent /\
  getQualityStatus 7.25 = Good /\
  getQualityStatus 2.5 = Fair /\
  getQualityStatus (-3) = Poor.
Proof.
  pose proof (getQualityStatus_boundaries 12.5) as (HE & _).
  pose proof (getQualityStatus_boundaries 7.25) as (_ & HG & _).
  pose proof (getQualityStatus_boundaries 2.5) as (_ & _ & HF & _).
  pose proof (getQualityStatus_boundaries (-3)) as (_ & _ & _ & HP & _).
  exact (conj (HE eq_refl)
           (conj (HG eq_refl eq_refl)
              (conj (HF eq_refl eq_refl) (HP eq_refl)))).
Defined.

(** C1: on a NaN [snr] every comparison is false, so [getQualityStatus]
    falls through to Poor, while [generateGuidance] falls through to its
    last return, the message written for [snr >= 10].  So whenever the
    [snr_dB] that [process] emits is NaN, the emitted status is Poor and the
    emitted guidance is "Excellent signal!". *)
Theorem guidance_on_NaN_snr {RT : Runtime} (pi stability : number)
    (sp : SignalProcessor.t) (rawSignal detrendedSignal : list number) :
  let metrics := fst (SignalProcessor.process sp rawSignal detrendedSignal) in
  getQualityStatus NaN = Poor /\
  generateGuidance NaN pi stability = "Excellent signal!" /\
  (PrimFloat.is_nan (QualityMetrics.snr_dB metrics) = true ->
   QualityMetrics.qualityStatus metrics = Poor /\
   QualityMetrics.guidanceMessage metrics = "Excellent signal!").
Proof.
  cbv zeta. split; [reflexivity | split; [reflexivity | ]].
  unfold SignalProcessor.process.
  destruct (SignalProcessor.calculateStability sp _) as [st sp1].
  cbn [fst QualityMetrics.snr_dB QualityMetrics.qualityStatus
       QualityMetrics.guidanceMessage].
  intros Hnan. apply is_nan_eq in Hnan. rewrite Hnan.
  split; reflexivity.
Qed.

(** A window with a NaN sample: the NaN reaches [snr_dB], and the record
    pairs the status Poor with the guidance for an excellent signal. *)
Lemma guidance_on_NaN_snr_witness :
  let metrics :=
    fst (SignalProcessor.process (RT := Fixture.runtime) Fixture.processor
           [NaN; 0.5; 0.5; 0.5] [NaN; 0; 0; 0]) in
  PrimFloat.is_nan (QualityMetrics.snr_dB metrics) = true /\
  QualityMetrics.qualityStatus metrics = Poor /\
  QualityMetrics.guidanceMessage metrics = "Excellent signal!".
Proof.
  pose proof (guidance_on_NaN_snr (RT := Fixture.runtime) 0 1
                Fixture.processor [NaN; 0.5; 0.5; 0.5] [NaN; 0; 0; 0])
    as (_ & _ & H).
  exact (conj eq_refl (H eq_refl)).
Defined.

End Classification.

(** ** Detrending *)
Section Detrending.
Import Detrend.

Lemma nth_map_seq {T : Type} (f : nat -> T) (d : T) (n i : nat) :
  i < n -> nth i (map f (seq 0 n)) d = f i.
Proof.
  intros Hi.
  rewrite (nth_indep _ d (f 0))
    by (rewrite length_map, length_seq; exact Hi).
  rewrite (map_nth f), seq_nth by exact Hi. reflexivity.
Qed.







(** Without overflow, rounding alone moves the output away from [0]: for
    [a = 2^52] and [b = 1] the last entry is [1]. *)
Example detrend_linear_rounds :
  detrend (linear 4503599627370496%float 1%float 4) = [0; 0; 0; 1]%float.
Proof. vm_compute. reflexivity. Qed.

(** On the window [1, 3, 5, 7] ([a = 1], [b = 2]) the output is exactly
    zero as well. *)
Example detrend_linear_float :
  detrend [1; 3; 5; 7]%float = [0; 0; 0; 0]%float.
Proof. reflexivity. Qed.

(** On a 300-sample window [0.5 + 0.001 * i] the float computation stays
    below [1e-12] in absolute value at every index. *)
Example detrend_linear_float_window :
  forallb (fun d => PrimFloat.ltb (PrimFloat.abs d) 1e-12)
    (detrend (map (fun i => 0.5 + 0.001 * Js.of_nat i) (seq 0 300))%float)
  = true.
Proof. vm_compute. reflexivity. Qed.

(** On a single sample the regression denominator [n * sxx - sx * sx] is
    [0] and the numerator a zero or NaN, so the slope is NaN and so is the
    output. *)
Lemma detrend_singleton (v : number) : detrend [v] = [NaN].
Proof.
  unfold detrend, regression_sums.
  cbn [List.length seq fold_left map nth accumulate sx sy sxy sxx
       add sub mul div zero of_nat float_arith].
  change (Js.of_nat 0) with 0%float. change (Js.of_nat 1) with 1%float.
  change (0 + 0)%float with 0%float.
  destruct (FloatFacts.mul_zero_l_cases v) as [H1|[H1|H1]]; rewrite H1;
    destruct (FloatFacts.mul_zero_l_cases (0 + v)) as [H2|[H2|H2]];
    rewrite H2;
    vm_compute; rewrite FloatFacts.sub_nan_r;
    vm_compute; rewrite FloatFacts.sub_nan_r; reflexivity.
Qed.

(** C2, as the code has it: [detrend] returns on windows of fewer than two
    samples, the empty array for none and [[NaN]] for one, and on a
    processing boundary the frame loop goes on to [process] with the
    detrended window. *)
Theorem detrend_short_window {RT : Runtime}
    (v : number) (m : PPGMonitor.t) (acdc' : list number) :
  PPGMonitor.processingWindow
    (PPGMonitor.nFrame m / PPGMonitor.windowLength m) = true ->
  Detrend.call [] = Normal [] /\
  Detrend.call [v] = Normal [NaN] /\
  PPGMonitor.windowBoundary m acdc' =
    (let ac' := Float32Array_from (detrend acdc') in
     let r := SignalProcessor.process (PPGMonitor.signalProcessor m) acdc' ac' in
     (1, ac', windowMean ac', fst r, snd r, [PPGMonitor.QualityUpdate (fst r)])).
Proof.
  intros Hw. unfold Detrend.call. rewrite detrend_singleton.
  repeat split. unfold PPGMonitor.windowBoundary. rewrite Hw.
  cbv zeta.
  destruct (SignalProcessor.process (PPGMonitor.signalProcessor m) acdc'
              (Float32Array_from (detrend acdc'))) as [metrics sp'].
  reflexivity.
Qed.

Lemma detrend_short_window_witness :
  PPGMonitor.processingWindow
    (PPGMonitor.nFrame (Fixture.monitorAt 104)
     / PPGMonitor.windowLength (Fixture.monitorAt 104)) = true /\
  Detrend.call [] = Normal [] /\
  Detrend.call [0.5%float] = Normal [NaN].
Proof.
  pose proof (detrend_short_window (RT := Fixture.runtime) 0.5%float
                (Fixture.monitorAt 104) [0.5%float] eq_refl) as (H0 & H1 & _).
  exact (conj eq_refl (conj H0 H1)).
Defined.

(** C2 as stated fails: on the one-sample window [[0.5]] the call returns
    [[NaN]] and throws nothing. *)
Lemma detrend_short_window_returns :
  List.length [0.5%float] < 2 /\
  Detrend.call [0.5%float] = Normal [NaN] /\
  returns (Detrend.call [0.5%float]) /\
  ~ throws (Detrend.call [0.5%float]) InvalidInputError.
Proof.
  split; [simpl; lia | split; [reflexivity | split]].
  - exists [NaN]. reflexivity.
  - unfold throws. intros H. discriminate H.
Qed.

End Detrending.

(** ** The signal processor *)
Section Processor.
Import SignalProcessor.
Local Open Scope float_scope.

(** C3, as the code has it: construction never fails and checks nothing.
    The window length and the FFT size are stored as given, a missing or
    zero value being replaced by the default 300, respectively 256, and the
    two state fields start at [0]. *)
Theorem constructor_stores_sizes_unchecked (options : Options) :
  new options = Normal (constructor options) /\
  windowLength (constructor options) =
    match o_windowLength options with
    | None | Some O => 300%nat
    | Some w => w
    end /\
  fftSize (constructor options) =
    match o_fftSize options with
    | None | Some O => 256%nat
    | Some f => f
    end /\
  previousVariance (constructor options) = 0 /\
  qualityFrameCount (constructor options) = 0%nat.
Proof.
  destruct options as [[[|w]|] sr lo hi [[|f]|]];
    repeat split; reflexivity.
Qed.

Lemma three_not_power_of_two (k : nat) : (3 <> 2 ^ k)%nat.
Proof.
  destruct k as [|[|k]]; cbn [Nat.pow]; lia.
Qed.

(** C3 as stated fails: a window length of 1 and an FFT size of 3 are
    accepted. *)
Lemma constructor_accepts_bad_sizes :
  (1 < 2)%nat /\ (forall k, 3 <> 2 ^ k)%nat /\
  new {| o_windowLength := Some 1%nat; o_sampleRate := None;
         o_cardiacBandLow := None; o_cardiacBandHigh := None;
         o_fftSize := Some 3%nat |}
  = Normal {| windowLength := 1; sampleRate := 60;
              cardiacBandLow := 0.75; cardiacBandHigh := 4;
              fftSize := 3; previousVariance := 0;
              qualityFrameCount := 0 |} /\
  returns (new {| o_windowLength := Some 1%nat; o_sampleRate := None;
                  o_cardiacBandLow := None; o_cardiacBandHigh := None;
                  o_fftSize := Some 3%nat |}) /\
  ~ throws (new {| o_windowLength := Some 1%nat; o_sampleRate := None;
                   o_cardiacBandLow := None; o_cardiacBandHigh := None;
                   o_fftSize := Some 3%nat |}) ConfigurationError.
Proof.
  split; [lia | split; [exact three_not_power_of_two | split; [|split]]].
  - reflexivity.
  - eexists. reflexivity.
  - unfold throws. intros H. discriminate H.
Qed.

Lemma Math_min_same (v : number) : Math_min v v = v.
Proof.
  unfold Math_min.
  destruct (PrimFloat.is_nan v), (v <? v), (PrimFloat.get_sign v);
    reflexivity.
Qed.

Lemma Math_max_same (v : number) : Math_max v v = v.
Proof.
  unfold Math_max.
  destruct (PrimFloat.is_nan v), (v <? v), (PrimFloat.get_sign v);
    reflexivity.
Qed.

(** C4, as the code has it: with [previousVariance] at [0], a call with a
    variance [v > 0] returns exactly [1.0] and stores [v]; a second call
    with the same [v] returns [v / (v + 1e-10)] and keeps [v]; and for every
    processor [later] whose [previousVariance] is not [0] (the test
    [previousVariance === 0] fails, as it does for NaN) the ratio is
    [min(cur, prev) / (max(cur, prev) + 1e-10)] and [cur] is stored. *)
Theorem stability_first_and_later_calls (sp later : t) (v cur : number) :
  strict_eq (previousVariance sp) 0 = true ->
  lt 0 v = true ->
  fst (calculateStability sp v) = 1 /\
  previousVariance (snd (calculateStability sp v)) = v /\
  fst (calculateStability (snd (calculateStability sp v)) v)
    = v / (v + 1e-10) /\
  previousVariance (snd (calculateStability (snd (calculateStability sp v)) v))
    = v /\
  calculateStability (snd (calculateStability sp v)) cur =
    (Math_min cur v / (Math_max cur v + 1e-10),
     set_previousVariance (snd (calculateStability sp v)) cur) /\
  (strict_eq (previousVariance later) 0 = false ->
   calculateStability later cur =
     (Math_min cur (previousVariance later)
        / (Math_max cur (previousVariance later) + 1e-10),
      set_previousVariance later cur)).
Proof.
  intros Hprev Hv.
  assert (Hgeneral : strict_eq (previousVariance later) 0 = false ->
            calculateStability later cur =
            (Math_min cur (previousVariance later)
               / (Math_max cur (previousVariance later) + 1e-10),
             set_previousVariance later cur))
    by (intros Hlater; unfold calculateStability; now rewrite Hlater).
  assert (Hv0 : strict_eq v 0 = false)
    by (apply FloatFacts.ltb_not_eqb; exact Hv).
  assert (Hfirst : calculateStability sp v = (1, set_previousVariance sp v))
    by (unfold calculateStability; now rewrite Hprev).
  rewrite Hfirst. cbn [fst snd].
  assert (Hlater : forall c,
             calculateStability (set_previousVariance sp v) c =
             (Math_min c v / (Math_max c v + 1e-10),
              set_previousVariance (set_previousVariance sp v) c))
    by (intros c; unfold calculateStability;
        cbn [previousVariance set_previousVariance]; now rewrite Hv0).
  rewrite !Hlater. cbn [fst snd previousVariance set_previousVariance].
  rewrite Math_min_same, Math_max_same.
  repeat split. exact Hgeneral.
Qed.

Lemma stability_first_and_later_calls_witness :
  strict_eq (previousVariance (constructor noOptions)) 0 = true /\
  lt 0 0.25 = true /\
  strict_eq (previousVariance (set_previousVariance (constructor noOptions) NaN))
    0 = false /\
  fst (calculateStability (constructor noOptions) 0.25) = 1 /\
  fst (calculateStability
         (snd (calculateStability (constructor noOptions) 0.25)) 0.25)
    = 0.25 / (0.25 + 1e-10) /\
  calculateStability (set_previousVariance (constructor noOptions) NaN) 0.5 =
    (Math_min 0.5 NaN / (Math_max 0.5 NaN + 1e-10),
     set_previousVariance (set_previousVariance (constructor noOptions) NaN)
       0.5).
Proof.
  pose proof (stability_first_and_later_calls (constructor noOptions)
                (set_previousVariance (constructor noOptions) NaN)
                0.25 0.5 eq_refl eq_refl) as (H1 & _ & H2 & _ & _ & H3).
  exact (conj eq_refl (conj eq_refl (conj eq_refl
           (conj H1 (conj H2 (H3 eq_refl)))))).
Defined.

(** C4 as stated fails: after a first call with variance [1], a second call
    with the same variance returns [1 / (1 + 1e-10)], which is not [1.0];
    with the variance [1e-10] the second call returns [0.5]. *)
Lemma stability_second_call_below_one :
  lt 0 1 = true /\
  fst (calculateStability (constructor noOptions) 1) = 1 /\
  fst (calculateStability
         (snd (calculateStability (constructor noOptions) 1)) 1)
    = 0.99999999989999999 /\
  strict_eq
    (fst (calculateStability
            (snd (calculateStability (constructor noOptions) 1)) 1))
    1 = false /\
  lt 0 1e-10 = true /\
  fst (calculateStability (constructor noOptions) 1e-10) = 1 /\
  fst (calculateStability
         (snd (calculateStability (constructor noOptions) 1e-10)) 1e-10)
    = 0.5.
Proof.
  repeat split.
Qed.

(** The second call returns exactly [1.0] only where [v + 1e-10] rounds to
    [v], as it does for [v = 1e7]. *)
Example stability_second_call_large_variance :
  fst (calculateStability
         (snd (calculateStability (constructor noOptions) 1e7)) 1e7) = 1.
Proof. reflexivity. Qed.

(** C10: the first-call branch is keyed on [previousVariance === 0].  A
    call with a zero variance while [previousVariance] is zero returns
    [1.0] and leaves [previousVariance] zero, so the next call, whatever
    its variance, returns [1.0] again and stores that variance; [reset]
    puts the processor in this situation. *)
Theorem stability_keyed_on_zero_variance (sp : t) (cur next : number) :
  strict_eq (previousVariance sp) 0 = true ->
  strict_eq cur 0 = true ->
  fst (calculateStability sp cur) = 1 /\
  previousVariance (snd (calculateStability sp cur)) = cur /\
  strict_eq (previousVariance (snd (calculateStability sp cur))) 0 = true /\
  fst (calculateStability (snd (calculateStability sp cur)) next) = 1 /\
  previousVariance
    (snd (calculateStability (snd (calculateStability sp cur)) next)) = next /\
  previousVariance (reset sp) = 0 /\
  calculateStability (reset sp) 0 = (1, reset sp).
Proof.
  intros Hprev Hcur.
  assert (Hfirst : calculateStability sp cur
                   = (1, set_previousVariance sp cur))
    by (unfold calculateStability; now rewrite Hprev).
  rewrite Hfirst. cbn [fst snd previousVariance set_previousVariance].
  assert (Hagain : calculateStability (set_previousVariance sp cur) next
                   = (1, set_previousVariance
                           (set_previousVariance sp cur) next))
    by (unfold calculateStability;
        cbn [previousVariance set_previousVariance]; now rewrite Hcur).
  rewrite Hagain. cbn [fst snd previousVariance set_previousVariance].
  repeat split; assumption.
Qed.

Lemma stability_keyed_on_zero_variance_witness :
  strict_eq (previousVariance (constructor noOptions)) 0 = true /\
  strict_eq 0 0 = true /\
  fst (calculateStability
         (snd (calculateStability (constructor noOptions) 0)) 0.7) = 1.
Proof.
  pose proof (stability_keyed_on_zero_variance (constructor noOptions)
                0 0.7 eq_refl eq_refl) as (_ & _ & _ & H & _).
  exact (conj eq_refl (conj eq_refl H)).
Defined.

(** C5, as the code has it: the emitted [heartRate] is
    [round(peakFrequency * 60)], and the emitted [ibi] is computed from the
    unrounded rate [peakFrequency * 60]: [round(60000 / rate)] when
    [0 < rate < 300], and [0] otherwise. *)
Theorem process_heartRate_ibi {RT : Runtime}
    (sp : t) (rawSignal detrendedSignal : list number) :
  let metrics := fst (process sp rawSignal detrendedSignal) in
  let rate := QualityMetrics.peakFrequency metrics * 60 in
  QualityMetrics.heartRate metrics = Math_round rate /\
  QualityMetrics.ibi metrics =
    if gt rate 0 && lt rate 300 then Math_round (60000 / rate) else 0.
Proof.
  unfold process.
  destruct (calculateStability sp
              (variance (calculatePerfusionIndex rawSignal detrendedSignal)))
    as [stability sp1].
  cbn [fst QualityMetrics.peakFrequency QualityMetrics.heartRate
       QualityMetrics.ibi].
  split; reflexivity.
Qed.

(** C5 as stated fails: for the window [1, 0, -1, 0] sampled at 4.5 Hz the
    peak is at 1.125 Hz, the rate 67.5; the emitted [heartRate] is 68 and
    the emitted [ibi] is [round(60000 / 67.5) = 889], whereas
    [round(60000 / 68)] is 882. *)
Lemma ibi_from_unrounded_rate :
  let metrics :=
    fst (process (RT := Fixture.runtime) Fixture.processor
           [2; 1; 0; 1] [1; 0; -1; 0]) in
  QualityMetrics.peakFrequency metrics = 1.125 /\
  QualityMetrics.heartRate metrics = 68 /\
  gt (QualityMetrics.heartRate metrics) 0 = true /\
  lt (QualityMetrics.heartRate metrics) 300 = true /\
  QualityMetrics.ibi metrics = 889 /\
  Math_round (60000 / QualityMetrics.heartRate metrics) = 882 /\
  strict_eq (QualityMetrics.ibi metrics)
    (Math_round (60000 / QualityMetrics.heartRate metrics)) = false.
Proof.
  vm_compute. repeat split.
Qed.

End Processor.

(** ** The spectrum and the band SNR *)
Section Spectrum.
Import Fft.
Local Open Scope float_scope.

(** The band loop keeps, in its first two accumulators, the sum over the
    bins seen so far that are in the band, and the sum over all of them. *)
Lemma bandLoop_sums (psd : list number) (low high : number)
    (bins : list nat) (b : band) :
  b_signalPower (fold_left (bandStep psd low high) bins b) =
    fold_left (fun s i => s + nth i psd NaN)
      (filter (inBand low high) bins) (b_signalPower b) /\
  b_totalPower (fold_left (bandStep psd low high) bins b) =
    fold_left (fun s i => s + nth i psd NaN) bins (b_totalPower b).
Proof.
  revert b. induction bins as [|i bins IH]; intros b.
  - split; reflexivity.
  - cbn [fold_left filter].
    destruct (IH (bandStep psd low high b i)) as [IHs IHt].
    rewrite IHs, IHt. unfold bandStep.
    destruct (inBand low high i); [destruct (gt _ _)|];
      cbn [b_signalPower b_totalPower fold_left]; split; reflexivity.
Qed.

Lemma nth_repeat_lt {T : Type} (a d : T) (k i : nat) :
  (i < k)%nat -> nth i (repeat a k) d = a.
Proof.
  intros Hi. rewrite (nth_indep _ d a) by (now rewrite repeat_length).
  apply nth_repeat.
Qed.

(** On an all-zero spectrum no iteration changes the accumulators. *)
Lemma bandLoop_silent (k : nat) (low high : number) (bins : list nat) :
  (forall i, In i bins -> (i < k)%nat) ->
  fold_left (bandStep (repeat 0 k) low high) bins initialBand = initialBand.
Proof.
  induction bins as [|i bins IH]; intros Hb; [reflexivity|].
  cbn [fold_left].
  assert (Hstep : bandStep (repeat 0 k) low high initialBand i = initialBand).
  { unfold bandStep. rewrite nth_repeat_lt by (apply Hb; now left).
    destruct (inBand low high i); reflexivity. }
  rewrite Hstep. apply IH. intros j Hj. apply Hb. now right.
Qed.

Lemma store_silent (k i : nat) : store (repeat 0 k) i 0 = repeat 0 k.
Proof.
  revert i. induction k as [|k IH]; intros i; [reflexivity|].
  destruct i as [|i]; cbn [repeat store]; [reflexivity|].
  now rewrite IH.
Qed.

Lemma padSignal_silent (n size : nat) :
  padSignal (repeat 0 n) size = repeat 0 size.
Proof.
  unfold padSignal. rewrite repeat_length.
  assert (H : forall bins, (forall i, In i bins -> (i < n)%nat) ->
            fold_left (fun padded i => store padded i (nth i (repeat 0 n) NaN))
              bins (repeat 0 size) = repeat 0 size).
  { induction bins as [|i bins IH]; intros Hb; [reflexivity|].
    cbn [fold_left]. rewrite nth_repeat_lt by (apply Hb; now left).
    rewrite store_silent. apply IH. intros j Hj. apply Hb. now right. }
  apply H. intros i Hi. apply in_seq in Hi. lia.
Qed.

Lemma square_sum_silent (re im : number) :
  strict_eq re 0 = true -> strict_eq im 0 = true ->
  Math_fround (re * re + im * im) = 0.
Proof.
  intros Hre Him.
  destruct (FloatFacts.eqb_zero_cases re Hre) as [-> | ->];
    destruct (FloatFacts.eqb_zero_cases im Him) as [-> | ->];
    reflexivity.
Qed.

Lemma powerSpectrum_silent (out : list number) (size : nat) :
  List.length out = (2 * size)%nat ->
  Forall (fun z => strict_eq z 0 = true) out ->
  powerSpectrum out size = repeat 0 (size / 2).
Proof.
  intros Hlen Hz. unfold powerSpectrum.
  rewrite <- (length_seq (size / 2) 0) at 2. rewrite <- map_const.
  apply map_ext_in. intros i Hi. apply in_seq in Hi.
  assert (Hhalf : (2 * (size / 2) <= size)%nat)
    by (apply Nat.Div0.mul_div_le).
  rewrite Forall_forall in Hz.
  apply square_sum_silent; apply Hz, nth_In; lia.
Qed.

(** C7: [calculateSNRFromPSD] returns
    [snr_dB = 10 * log10((signalPower + 1e-10) / (noisePower + 1e-10))],
    where [signalPower] is the sum of the bins of [1 .. psd.length - 1]
    inside the band, [totalPower] the sum of all of them and [noisePower]
    their difference.  When the FFT of the zero signal is zero and
    [log10(1) = 0], [computeFFT] of an all-zero input has an all-zero PSD,
    on which [snr_dB] is exactly [0]. *)
Theorem bandSNR_formula_and_silence {RT : Runtime}
    (spectrum : list number) (freqRes cardiacBandLow cardiacBandHigh : number)
    (n size : nat) (rate : number) :
  Math_log10 1 = 0 ->
  List.length (fft_transform size (repeat 0 size)) = (2 * size)%nat ->
  Forall (fun z => strict_eq z 0 = true) (fft_transform size (repeat 0 size)) ->
  let r := calculateSNRFromPSD spectrum freqRes cardiacBandLow cardiacBandHigh in
  let low := Math_floor (cardiacBandLow / freqRes) in
  let high := Math_ceil (cardiacBandHigh / freqRes) in
  let silent := computeFFT (repeat 0 n) size rate in
  signalPower r = sumBins spectrum (bandBins spectrum low high) /\
  totalPower r = sumBins spectrum (spectrumBins spectrum) /\
  noisePower r = totalPower r - signalPower r /\
  snr_dB r =
    10 * Math_log10 ((signalPower r + 1e-10) / (noisePower r + 1e-10)) /\
  psd silent = repeat 0 (size / 2) /\
  snr_dB (calculateSNRFromPSD (psd silent) (freqResolution silent)
            cardiacBandLow cardiacBandHigh) = 0.
Proof.
  intros Hlog Hlen Hzero r low high silent.
  destruct (bandLoop_sums spectrum low high (spectrumBins spectrum)
              initialBand) as [Hs Ht].
  assert (Hpsd : psd silent = repeat 0 (size / 2)).
  { unfold silent, computeFFT. cbn [psd]. rewrite padSignal_silent.
    now apply powerSpectrum_silent. }
  repeat split.
  - exact Hs.
  - exact Ht.
  - exact Hpsd.
  - rewrite Hpsd. unfold calculateSNRFromPSD, bandLoop. cbn [snr_dB].
    rewrite bandLoop_silent.
    + cbn [b_signalPower b_totalPower initialBand].
      change ((0 + epsilon) / (0 - 0 + epsilon)) with 1.
      rewrite Hlog. reflexivity.
    + intros i Hi. apply in_seq in Hi. rewrite repeat_length in *. lia.
Qed.

Lemma bandSNR_formula_and_silence_witness :
  Math_log10 (Runtime := Fixture.runtime) 1 = 0 /\
  psd (computeFFT (RT := Fixture.runtime) [0; 0; 0; 0] 4 60) = [0; 0] /\
  snr_dB (calculateSNRFromPSD (RT := Fixture.runtime) [0; 0] 15 0.75 4) = 0.
Proof.
  assert (Hz : Forall (fun z => strict_eq z 0 = true)
                 (fft_transform (Runtime := Fixture.runtime) 4 (repeat 0 4)))
    by (repeat constructor).
  pose proof (bandSNR_formula_and_silence (RT := Fixture.runtime)
                [0; 4] 1.125 0.75 4 4 4 60 eq_refl eq_refl Hz)
    as (_ & _ & _ & _ & Hp & Hs).
  exact (conj eq_refl (conj Hp Hs)).
Defined.

End Spectrum.

(** ** The duty cycle of the frame loop *)
Section DutyCycle.
Import PPGMonitor.

(** Window indices [200k .. 200k + 99] are processed and
    [200k + 100 .. 200k + 199] are held. *)
Lemma processingWindow_runs (k j : nat) :
  j < 100 ->
  processingWindow (200 * k + j) = true /\
  processingWindow (200 * k + 100 + j) = false.
Proof.
  intros Hj. unfold processingWindow. split.
  - replace (200 * k + j) with (2 * k * 100 + j) by lia.
    rewrite Nat.div_add_l, (Nat.div_small j 100), Nat.add_0_r by lia.
    rewrite Nat.mul_comm, Nat.Div0.mod_mul. reflexivity.
  - replace (200 * k + 100 + j) with ((2 * k + 1) * 100 + j) by lia.
    rewrite Nat.div_add_l, (Nat.div_small j 100), Nat.add_0_r by lia.
    replace (2 * k + 1) with (1 + k * 2) by lia.
    rewrite Nat.Div0.mod_add. reflexivity.
Qed.

(** Between boundaries, and during the warm-up, a frame leaves the phase,
    the metrics and the processor as they are and emits no quality
    update. *)
Lemma phase_kept_between_boundaries {RT : Runtime} (m : t) (xMean : number) :
  nFrame m <= DURATION \/ nFrame m mod windowLength m <> 0 ->
  schedulerState (fst (computeFrame m xMean)) = schedulerState m /\
  currentMetrics (fst (computeFrame m xMean)) = currentMetrics m /\
  signalProcessor (fst (computeFrame m xMean)) = signalProcessor m /\
  (forall q, ~ In (QualityUpdate q) (snd (computeFrame m xMean))).
Proof.
  intros Hcase. unfold computeFrame.
  destruct (DURATION <? nFrame m) eqn:Hwarm.
  - destruct Hcase as [Hle | Hmod];
      [apply Nat.ltb_lt in Hwarm; lia|].
    apply Nat.eqb_neq in Hmod. rewrite Hmod.
    cbn [fst snd]. repeat split.
    intros q [Hq|[Hq|[]]]; discriminate Hq.
  - cbn [fst snd]. repeat split. intros q [].
Qed.

End DutyCycle.

(** ** More facts about floats: the order away from NaN *)
Module FloatTotal.
Local Open Scope float_scope.

Lemma Prim2SF_nan (x : float) :
  PrimFloat.is_nan x = true -> Prim2SF x = S754_nan.
Proof. intros H. unfold Prim2SF. now rewrite H. Qed.

Lemma Prim2SF_not_nan (x : float) :
  PrimFloat.is_nan x = false -> Prim2SF x <> S754_nan.
Proof.
  intros H. unfold Prim2SF. rewrite H.
  destruct (is_zero x); [discriminate|].
  destruct (is_infinity x); [discriminate|].
  destruct (FloatOps.Z.frexp x) as [r e].
  destruct (shr_fexp _ _ _ _ _) as [shr e'].
  destruct (shr_m shr); discriminate.
Qed.

Lemma SFcompare_defined (x y : spec_float) :
  x <> S754_nan -> y <> S754_nan -> exists c, SFcompare x y = Some c.
Proof.
  destruct x as [sx|sx| |sx mx ex], y as [sy|sy| |sy my ey]; intros Hx Hy;
    try congruence; simpl; eauto.
Qed.

Lemma SFcompare_nan_l (y : spec_float) : SFcompare S754_nan y = None.
Proof. reflexivity. Qed.

Lemma SFcompare_nan_r (x : spec_float) : SFcompare x S754_nan = None.
Proof. destruct x; reflexivity. Qed.

Ltac close_order_case :=
  simpl; try discriminate; try congruence; try reflexivity; try lia.

(** [<=] composes, and the result is strict as soon as one step is. *)
Lemma SFcompare_le_trans (x y z : spec_float) (c1 c2 : comparison) :
  SFcompare x y = Some c1 -> SFcompare y z = Some c2 ->
  c1 <> Gt -> c2 <> Gt ->
  SFcompare x z = Some match c1, c2 with Eq, Eq => Eq | _, _ => Lt end.
Proof.
  intros H1 H2 N1 N2.
  destruct x as [sx|sx| |sx mx ex], y as [sy|sy| |sy my ey],
           z as [sz|sz| |sz mz ez]; simpl in *;
    try discriminate;
    repeat match goal with s : bool |- _ => destruct s end;
    simpl in *;
    try (injection H1 as <-); try (injection H2 as <-);
    close_order_case.
  all: try revert N2; try revert N1; FloatFacts.fold_pos_compare;
    repeat match goal with
      | |- context [(?a ?= ?b)%Z] => destruct (Z.compare_spec a b)
      end; close_order_case;
    repeat match goal with
      | |- context [(?a ?= ?b)%positive] => destruct (Pos.compare_spec a b)
      end; close_order_case.
Qed.

(** What the comparison of two floats can be. *)
Lemma compare_cases (a b : float) :
  (PrimFloat.is_nan a = true \/ PrimFloat.is_nan b = true) /\
    SFcompare (Prim2SF a) (Prim2SF b) = None \/
  PrimFloat.is_nan a = false /\ PrimFloat.is_nan b = false /\
    exists c, SFcompare (Prim2SF a) (Prim2SF b) = Some c.
Proof.
  destruct (PrimFloat.is_nan a) eqn:Ha.
  { left. split; [now left|]. now rewrite (Prim2SF_nan a Ha). }
  destruct (PrimFloat.is_nan b) eqn:Hb.
  { left. split; [now right|].
    rewrite (Prim2SF_nan b Hb). apply SFcompare_nan_r. }
  right. repeat split.
  apply SFcompare_defined; now apply Prim2SF_not_nan.
Qed.

Lemma leb_not_nan (a b : float) :
  (a <=? b) = true ->
  PrimFloat.is_nan a = false /\ PrimFloat.is_nan b = false.
Proof.
  rewrite leb_spec. unfold SFleb.
  destruct (compare_cases a b) as [[_ ->] | (Ha & Hb & _)];
    [discriminate | auto].
Qed.

Lemma ltb_not_nan (a b : float) :
  (a <? b) = true ->
  PrimFloat.is_nan a = false /\ PrimFloat.is_nan b = false.
Proof.
  rewrite ltb_spec. unfold SFltb.
  destruct (compare_cases a b) as [[_ ->] | (Ha & Hb & _)];
    [discriminate | auto].
Qed.

(** Away from NaN the order is total: what is not [b <= a] is [a < b]. *)
Lemma leb_total (a b : float) :
  PrimFloat.is_nan a = false -> PrimFloat.is_nan b = false ->
  (b <=? a) = false -> (a <? b) = true.
Proof.
  intros Ha Hb. rewrite leb_spec, ltb_spec. unfold SFleb, SFltb.
  rewrite (FloatFacts.SFcompare_antisym (Prim2SF a) (Prim2SF b)).
  destruct (compare_cases a b) as [[[H|H] _] | (_ & _ & c & ->)];
    try congruence.
  destruct c; simpl; congruence.
Qed.

Lemma ltb_leb (a b : float) : (a <? b) = true -> (a <=? b) = true.
Proof.
  rewrite ltb_spec, leb_spec. unfold SFltb, SFleb.
  destruct (SFcompare (Prim2SF a) (Prim2SF b)) as [[]|]; congruence.
Qed.

Lemma ltb_asym (a b : float) : (a <? b) = true -> (b <? a) = false.
Proof.
  intros H. destruct (b <? a) eqn:Hba; [|reflexivity].
  apply ltb_leb in Hba. now rewrite (FloatFacts.ltb_not_leb a b H) in Hba.
Qed.

Lemma ltb_irrefl (a : float) : (a <? a) = false.
Proof.
  destruct (a <? a) eqn:H; [|reflexivity].
  now rewrite (ltb_asym a a H) in H.
Qed.

Lemma leb_trans (a b c : float) :
  (a <=? b) = true -> (b <=? c) = true -> (a <=? c) = true.
Proof.
  rewrite !leb_spec. unfold SFleb. intros H1 H2.
  destruct (SFcompare (Prim2SF a) (Prim2SF b)) as [c1|] eqn:E1;
    [|discriminate].
  destruct (SFcompare (Prim2SF b) (Prim2SF c)) as [c2|] eqn:E2;
    [|discriminate].
  rewrite (SFcompare_le_trans _ _ _ c1 c2 E1 E2)
    by (destruct c1, c2; congruence).
  destruct c1, c2; congruence.
Qed.

Lemma leb_ltb_trans (a b c : float) :
  (a <=? b) = true -> (b <? c) = true -> (a <? c) = true.
Proof.
  rewrite leb_spec, !ltb_spec. unfold SFleb, SFltb. intros H1 H2.
  destruct (SFcompare (Prim2SF a) (Prim2SF b)) as [c1|] eqn:E1;
    [|discriminate].
  destruct (SFcompare (Prim2SF b) (Prim2SF c)) as [c2|] eqn:E2;
    [|discriminate].
  rewrite (SFcompare_le_trans _ _ _ c1 c2 E1 E2)
    by (destruct c1, c2; congruence).
  destruct c1, c2; congruence.
Qed.

(** Floats that compare equal are the same float, or two zeros. *)
Lemma SFcompare_eq_cases (x y : spec_float) :
  SFcompare x y = Some Eq ->
  x = y \/ exists sx sy, x = S754_zero sx /\ y = S754_zero sy.
Proof.
  destruct x as [sx|sx| |sx mx ex], y as [sy|sy| |sy my ey]; simpl;
    try discriminate; FloatFacts.fold_pos_compare;
    repeat match goal with s : bool |- _ => destruct s end;
    simpl; try discriminate;
    try (intros _; left; reflexivity);
    try (intros _; right; eauto; fail).
  all: destruct (Z.compare_spec ex ey); try discriminate;
    destruct (Pos.compare_spec mx my); try discriminate;
    subst; auto.
Qed.

Lemma eqb_cases (a b : float) :
  (a =? b) = true ->
  a = b \/ ((a = 0 \/ a = -0) /\ (b = 0 \/ b = -0)).
Proof.
  rewrite eqb_spec. unfold SFeqb.
  destruct (SFcompare (Prim2SF a) (Prim2SF b)) as [[]|] eqn:E;
    try discriminate.
  intros _. destruct (SFcompare_eq_cases _ _ E) as [H | (sa & sb & Ha & Hb)].
  - left. now apply Prim2SF_inj.
  - right. rewrite <- (SF2Prim_Prim2SF a), <- (SF2Prim_Prim2SF b), Ha, Hb.
    destruct sa, sb; cbn; auto.
Qed.

(** Away from NaN, two floats neither of which is below the other compare
    equal. *)
Lemma not_ltb_eqb (a b : float) :
  PrimFloat.is_nan a = false -> PrimFloat.is_nan b = false ->
  (a <? b) = false -> (b <? a) = false -> (a =? b) = true.
Proof.
  intros Ha Hb. rewrite !ltb_spec, eqb_spec. unfold SFltb, SFeqb.
  rewrite (FloatFacts.SFcompare_antisym (Prim2SF a) (Prim2SF b)).
  destruct (compare_cases a b) as [[[H|H] _] | (_ & _ & c & ->)];
    try congruence.
  destruct c; simpl; congruence.
Qed.

End FloatTotal.

(** ** Status and guidance agree *)
Section GuidanceTable.
Local Open Scope string_scope.
Local Open Scope float_scope.

(** X1: On every [snr] that is not NaN, the guidance message belongs to the
    status: Excellent comes with "Excellent signal!", Good with "Good signal
    - hold steady", Fair with one of the four adjustment messages and Poor
    with one of the two placement messages. *)
Theorem guidance_matches_status (snr pi stability : number) :
  (getQualityStatus snr = Excellent ->
   generateGuidance snr pi stability = "Excellent signal!") /\
  (getQualityStatus snr = Good ->
   generateGuidance snr pi stability = "Good signal - hold steady") /\
  (getQualityStatus snr = Fair ->
   In (generateGuidance snr pi stability)
      ["Press finger more firmly"; "Reduce finger pressure slightly";
       "Hold finger still"; "Adjusting... hold steady"]) /\
  (getQualityStatus snr = Poor -> PrimFloat.is_nan snr = false ->
   In (generateGuidance snr pi stability)
      ["Cover camera completely with finger"; "Adjust finger placement"]).
Proof.
  unfold getQualityStatus, generateGuidance, ge, lt, gt.
  destruct (10 <=? snr) eqn:H10.
  { assert (H0 : (snr <? 0) = false).
    { destruct (snr <? 0) eqn:E; [|reflexivity].
      now rewrite (FloatFacts.ltb_not_leb_above snr 0 10 E eq_refl) in H10. }
    assert (H5 : (snr <? 5) = false).
    { destruct (snr <? 5) eqn:E; [|reflexivity].
      now rewrite (FloatFacts.ltb_not_leb_above snr 5 10 E eq_refl) in H10. }
    assert (Hlt10 : (snr <? 10) = false).
    { destruct (snr <? 10) eqn:E; [|reflexivity].
      now rewrite (FloatFacts.ltb_not_leb snr 10 E) in H10. }
    rewrite H0, H5, Hlt10, !andb_false_r.
    repeat split; discriminate. }
  destruct (5 <=? snr) eqn:H5.
  { destruct (FloatTotal.leb_not_nan _ _ H5) as [_ Hn].
    assert (H0 : (snr <? 0) = false).
    { destruct (snr <? 0) eqn:E; [|reflexivity].
      now rewrite (FloatFacts.ltb_not_leb_above snr 0 5 E eq_refl) in H5. }
    assert (Hlt5 : (snr <? 5) = false).
    { destruct (snr <? 5) eqn:E; [|reflexivity].
      now rewrite (FloatFacts.ltb_not_leb snr 5 E) in H5. }
    rewrite H0, Hlt5, (FloatTotal.leb_total snr 10 Hn eq_refl H10),
      !andb_false_r.
    cbn [andb]. repeat split; discriminate. }
  destruct (0 <=? snr) eqn:H0.
  { destruct (FloatTotal.leb_not_nan _ _ H0) as [_ Hn].
    assert (Hlt0 : (snr <? 0) = false).
    { destruct (snr <? 0) eqn:E; [|reflexivity].
      now rewrite (FloatFacts.ltb_not_leb snr 0 E) in H0. }
    rewrite Hlt0, (FloatTotal.leb_total snr 5 Hn eq_refl H5).
    cbn [andb].
    split; [discriminate | split; [discriminate | split]].
    - intros _.
      destruct (pi <? 1); [now left|].
      destruct (15 <? pi); [now right; left|].
      destruct (stability <? 0.5); [now right; right; left|].
      now right; right; right; left.
    - discriminate. }
  split; [discriminate | split; [discriminate | split; [discriminate|]]].
  intros _ Hn. rewrite (FloatTotal.leb_total snr 0 Hn eq_refl H0).
  destruct (pi <? 0.3); [now left | now right; left].
Qed.

Lemma guidance_matches_status_witness :
  getQualityStatus (-2) = Poor /\ PrimFloat.is_nan (-2) = false /\
  In (generateGuidance (-2) 0.1 1)
     ["Cover camera completely with finger"; "Adjust finger placement"] /\
  generateGuidance 7 2 1 = "Good signal - hold steady".
Proof.
  pose proof (guidance_matches_status (-2) 0.1 1) as (_ & _ & _ & HP).
  pose proof (guidance_matches_status 7 2 1) as (_ & HG & _).
  exact (conj eq_refl (conj eq_refl (conj (HP eq_refl eq_refl) (HG eq_refl)))).
Defined.

End GuidanceTable.

(** ** The peak of the band *)
Section BandPeak.
Import Fft.
Local Open Scope float_scope.

(** What the band loop knows after the bins [1 .. k]: the running maximum
    is not negative; it is [0] with no peak yet, or the power of the peak
    bin, which is in the band and positive; no bin of the band seen so far
    is above it, and none before the peak reaches it. *)
Lemma bandLoop_peak_invariant (psd : list number) (low high : number)
    (k : nat) :
  let b := fold_left (bandStep psd low high) (seq 1 k) initialBand in
  (0 <=? b_maxPower b) = true /\
  ((b_peakIdx b = 0%nat /\ b_maxPower b = 0) \/
   ((1 <= b_peakIdx b <= k)%nat /\
    inBand low high (b_peakIdx b) = true /\
    b_maxPower b = nth (b_peakIdx b) psd NaN /\
    (0 <? b_maxPower b) = true)) /\
  (forall j, (1 <= j <= k)%nat -> inBand low high j = true ->
     gt (nth j psd NaN) (b_maxPower b) = false) /\
  (forall j, (1 <= j < b_peakIdx b)%nat -> inBand low high j = true ->
     ge (nth j psd NaN) (b_maxPower b) = false).
Proof.
  induction k as [|k IH].
  - cbn. repeat split; try (intros; lia). now left.
  - rewrite seq_S, fold_left_app. cbn [fold_left Nat.add].
    set (b := fold_left (bandStep psd low high) (seq 1 k) initialBand) in *.
    cbv zeta in IH. destruct IH as (Hpos & Hpeak & Hmax & Hfirst).
    unfold bandStep. set (p := nth (S k) psd NaN).
    destruct (inBand low high (S k)) eqn:Hband;
      [destruct (gt p (b_maxPower b)) eqn:Hgt|];
      cbn [b_maxPower b_peakIdx].
    + unfold gt in Hgt.
      assert (Hp0 : (0 <? p) = true)
        by (exact (FloatTotal.leb_ltb_trans _ _ _ Hpos Hgt)).
      split; [now apply FloatTotal.ltb_leb|].
      split; [right; repeat split; try lia; assumption|].
      split.
      * intros j Hj Hjb. unfold gt.
        destruct (Nat.eq_dec j (S k)) as [->|Hne].
        { apply FloatTotal.ltb_irrefl. }
        destruct (p <? nth j psd NaN) eqn:E; [|reflexivity].
        assert (Hm : (b_maxPower b <? nth j psd NaN) = true)
          by (exact (FloatTotal.leb_ltb_trans _ _ _
                       (FloatTotal.ltb_leb _ _ Hgt) E)).
        assert (Hc := Hmax j ltac:(lia) Hjb). unfold gt in Hc. congruence.
      * intros j Hj Hjb. unfold ge.
        destruct (p <=? nth j psd NaN) eqn:E; [|reflexivity].
        assert (Hm : (b_maxPower b <? nth j psd NaN) = true)
          by (exact (FloatFacts.ltb_leb_trans _ _ _ Hgt E)).
        assert (Hc := Hmax j ltac:(lia) Hjb). unfold gt in Hc. congruence.
    + split; [assumption|].
      split.
      { destruct Hpeak as [Hz | (Hr & Hrest)]; [now left|].
        right. split; [lia | assumption]. }
      split; [|assumption].
      intros j Hj Hjb.
      destruct (Nat.eq_dec j (S k)) as [->|Hne]; [exact Hgt|].
      apply Hmax; [lia | assumption].
    + split; [assumption|].
      split.
      { destruct Hpeak as [Hz | (Hr & Hrest)]; [now left|].
        right. split; [lia | assumption]. }
      split; [|assumption].
      intros j Hj Hjb.
      destruct (Nat.eq_dec j (S k)) as [->|Hne]; [congruence|].
      apply Hmax; [lia | assumption].
Qed.

(** X3: The peak that [calculateSNRFromPSD] reports is the first bin of the
    band that holds the largest power of the band: [peakIdx] is [0] when no
    bin of the band has a power above [0]; otherwise it is a bin of
    [1 .. psd.length - 1] inside the band with a positive power, no bin of
    the band has a larger power, and no earlier bin of the band has the
    same power. *)
Theorem peak_is_first_band_maximum {RT : Runtime}
    (spectrum : list number) (freqRes cardiacBandLow cardiacBandHigh : number) :
  let r := calculateSNRFromPSD spectrum freqRes cardiacBandLow cardiacBandHigh in
  let low := Math_floor (cardiacBandLow / freqRes) in
  let high := Math_ceil (cardiacBandHigh / freqRes) in
  let peakPower :=
    if (peakIdx r =? 0)%nat then 0 else nth (peakIdx r) spectrum NaN in
  (peakIdx r = 0%nat \/
   ((1 <= peakIdx r < List.length spectrum)%nat /\
    inBand low high (peakIdx r) = true /\
    lt 0 peakPower = true)) /\
  (forall j, In j (bandBins spectrum low high) ->
     gt (nth j spectrum NaN) peakPower = false) /\
  (forall j, In j (bandBins spectrum low high) -> (j < peakIdx r)%nat ->
     ge (nth j spectrum NaN) peakPower = false).
Proof.
  intros r low high peakPower.
  pose proof (bandLoop_peak_invariant spectrum low high
                (List.length spectrum - 1)) as Hinv.
  cbv zeta in Hinv. fold (bandLoop spectrum low high) in Hinv.
  destruct Hinv as (_ & Hpeak & Hmax & Hfirst).
  assert (Hidx : peakIdx r = b_peakIdx (bandLoop spectrum low high))
    by reflexivity.
  assert (Hpow : peakPower = b_maxPower (bandLoop spectrum low high)).
  { unfold peakPower. rewrite Hidx.
    destruct Hpeak as [[-> ->] | (Hr & _ & -> & _)]; [reflexivity|].
    destruct (b_peakIdx (bandLoop spectrum low high)); [lia | reflexivity]. }
  assert (Hbins : forall j, In j (bandBins spectrum low high) ->
            (1 <= j <= List.length spectrum - 1)%nat /\
            inBand low high j = true).
  { intros j Hj. unfold bandBins, spectrumBins in Hj.
    apply filter_In in Hj. destruct Hj as [Hj Hb].
    apply in_seq in Hj. split; [lia | exact Hb]. }
  rewrite Hpow, Hidx. split; [|split].
  - destruct Hpeak as [[Hz _] | (Hr & Hb & _ & Hp)]; [now left|].
    right. split; [lia | split; assumption].
  - intros j Hj. destruct (Hbins j Hj). now apply Hmax.
  - intros j Hj Hlt. destruct (Hbins j Hj). apply Hfirst; [lia | assumption].
Qed.

Lemma peak_is_first_band_maximum_witness :
  let r := calculateSNRFromPSD (RT := Fixture.runtime)
             [9; 1; 4; 4; 2] 1 2 4 in
  In 3%nat (bandBins [9; 1; 4; 4; 2] (Math_floor (2 / 1)) (Math_ceil (4 / 1))) /\
  peakIdx r = 2%nat /\
  gt (nth 3 [9; 1; 4; 4; 2] NaN) 4 = false.
Proof.
  pose proof (peak_is_first_band_maximum (RT := Fixture.runtime)
                [9; 1; 4; 4; 2] 1 2 4) as (_ & Hmax & _).
  assert (Hin : In 3%nat (bandBins [9; 1; 4; 4; 2]
                            (Math_floor (2 / 1)) (Math_ceil (4 / 1))))
    by (vm_compute; auto).
  exact (conj Hin (conj eq_refl (Hmax 3%nat Hin))).
Defined.

End BandPeak.

(** ** Padding and truncation of the FFT input *)
Section Padding.
Import Fft.
Local Open Scope float_scope.

Lemma store_length (a : list number) (i : nat) (v : number) :
  List.length (store a i v) = List.length a.
Proof.
  revert i. induction a as [|h t IH]; intros i; [reflexivity|].
  destruct i; cbn [store List.length]; [reflexivity | now rewrite IH].
Qed.

(** A store just behind a prefix replaces the element there. *)
Lemma store_after_prefix (a b : list number) (x v : number) (k : nat) :
  List.length a = k ->
  store (a ++ x :: b) k v = a ++ Math_fround v :: b.
Proof.
  intros <-. induction a as [|h t IH]; [reflexivity|].
  cbn [List.length app store]. now rewrite IH.
Qed.

Lemma firstn_snoc_nth (l : list number) (k : nat) (d : number) :
  (k < List.length l)%nat ->
  firstn (S k) l = firstn k l ++ [nth k l d].
Proof.
  revert k. induction l as [|h t IH]; intros k Hk; [cbn in Hk; lia|].
  destruct k as [|k]; [reflexivity|].
  cbn [firstn nth app]. cbn [List.length] in Hk.
  now rewrite <- IH by lia.
Qed.

Lemma padSignal_prefix (signal : list number) (size k : nat) :
  (k <= Nat.min (List.length signal) size)%nat ->
  fold_left (fun padded i => store padded i (nth i signal NaN))
    (seq 0 k) (repeat 0 size) =
  Float32Array_from (firstn k signal) ++ repeat 0 (size - k).
Proof.
  induction k as [|k IH]; intros Hk.
  - cbn. now rewrite Nat.sub_0_r.
  - rewrite seq_S, fold_left_app, IH by lia. cbn [fold_left Nat.add].
    replace (size - k)%nat with (S (size - S k)) by lia.
    cbn [repeat].
    assert (Hlen : List.length (Float32Array_from (firstn k signal)) = k).
    { unfold Float32Array_from. rewrite length_map, length_firstn. lia. }
    rewrite (store_after_prefix _ _ _ _ k Hlen).
    rewrite (firstn_snoc_nth signal k NaN) by lia.
    unfold Float32Array_from. rewrite map_app, <- app_assoc. reflexivity.
Qed.

Lemma padSignal_closed_form (signal : list number) (size : nat) :
  padSignal signal size =
    Float32Array_from (firstn size signal)
    ++ repeat 0 (size - List.length signal).
Proof.
  unfold padSignal. rewrite padSignal_prefix by lia.
  destruct (Nat.le_ge_cases (List.length signal) size) as [Hle | Hge].
  - rewrite Nat.min_l by exact Hle.
    now rewrite !firstn_all2 by lia.
  - rewrite Nat.min_r by exact Hge.
    replace (size - size)%nat with 0%nat by lia.
    replace (size - List.length signal)%nat with 0%nat by lia.
    reflexivity.
Qed.

(** X5: The buffer [computeFFT] fills for the FFT has exactly [fftSize]
    samples: the signal rounded to single precision, cut after [fftSize]
    samples when it is longer and filled up with zeros when it is shorter;
    and for a size the FFT accepts the spectrum that is returned has
    [fftSize / 2] bins, whatever the transform returns. *)
Theorem padSignal_pads_or_truncates {RT : Runtime}
    (signal : list number) (size : nat) (rate : number) :
  padSignal signal size =
    Float32Array_from (firstn size signal)
    ++ repeat 0 (size - List.length signal) /\
  List.length (padSignal signal size) = size /\
  (fftAccepts size = true ->
   List.length (psd (computeFFT signal size rate)) = (size / 2)%nat).
Proof.
  pose proof (padSignal_closed_form signal size) as Hpad.
  split; [exact Hpad | split].
  - rewrite Hpad. unfold Float32Array_from.
    rewrite length_app, length_map, length_firstn, repeat_length. lia.
  - intros _. unfold computeFFT, powerSpectrum. cbn [psd].
    now rewrite length_map, length_seq.
Qed.

Lemma padSignal_pads_or_truncates_witness :
  fftAccepts 4 = true /\
  padSignal [1; 2; 3; 4; 5] 4 = [1; 2; 3; 4] /\
  padSignal [1; 2] 4 = [1; 2; 0; 0] /\
  List.length
    (psd (computeFFT (RT := Fixture.runtime) [1; 2; 3; 4; 5] 4 4.5)) = 2%nat.
Proof.
  pose proof (padSignal_pads_or_truncates (RT := Fixture.runtime)
                [1; 2; 3; 4; 5] 4 4.5) as (Hlong & _ & Hpsd).
  pose proof (padSignal_pads_or_truncates (RT := Fixture.runtime)
                [1; 2] 4 4.5) as (Hshort & _).
  exact (conj eq_refl (conj Hlong (conj Hshort (Hpsd eq_refl)))).
Defined.

End Padding.

(** ** The state of the processor across windows *)
Section ProcessorState.
Import SignalProcessor.
Local Open Scope float_scope.

(** The counter condition [snr_dB >= 5] is the status being Good or
    Excellent. *)
Lemma ge_5_is_good (snr : number) :
  ge snr 5 =
  match getQualityStatus snr with
  | Excellent | Good => true
  | _ => false
  end.
Proof.
  unfold getQualityStatus, ge.
  destruct (10 <=? snr) eqn:H10.
  - exact (FloatTotal.leb_trans 5 10 snr eq_refl H10).
  - destruct (5 <=? snr); [reflexivity|].
    destruct (0 <=? snr); reflexivity.
Qed.

(** The processor that [process] returns, written out. *)
Lemma process_new_state {RT : Runtime}
    (sp : t) (rawSignal detrendedSignal : list number) :
  snd (process sp rawSignal detrendedSignal) =
  {| windowLength := windowLength sp;
     sampleRate := sampleRate sp;
     cardiacBandLow := cardiacBandLow sp;
     cardiacBandHigh := cardiacBandHigh sp;
     fftSize := fftSize sp;
     previousVariance :=
       variance (calculatePerfusionIndex rawSignal detrendedSignal);
     qualityFrameCount :=
       (qualityFrameCount sp
        + if goodQuality (fst (process sp rawSignal detrendedSignal))
          then windowLength sp else 0)%nat |}.
Proof.
  unfold process, goodQuality.
  set (v := variance (calculatePerfusionIndex rawSignal detrendedSignal)).
  assert (Hst : snd (calculateStability sp v) = set_previousVariance sp v)
    by (unfold calculateStability;
        destruct (strict_eq (previousVariance sp) 0); reflexivity).
  destruct (calculateStability sp v) as [stability sp1].
  cbn [snd] in Hst. subst sp1.
  cbn [fst snd QualityMetrics.qualityStatus].
  rewrite ge_5_is_good.
  destruct (getQualityStatus _);
    unfold set_qualityFrameCount, set_previousVariance;
    cbn [windowLength sampleRate cardiacBandLow cardiacBandHigh fftSize
         previousVariance qualityFrameCount];
    f_equal; lia.
Qed.

(** X11: On a processor whose [fftSize] the FFT accepts, one call of
    [process] leaves the configuration alone, stores the variance of the
    window as [previousVariance], and adds [windowLength] to
    [qualityFrameCount] exactly when the record it returns is Good or
    Excellent; the record carries the new count. *)
Theorem process_updates_state {RT : Runtime}
    (sp : t) (rawSignal detrendedSignal : list number) :
  fftAccepts (fftSize sp) = true ->
  let metrics := fst (process sp rawSignal detrendedSignal) in
  let sp' := snd (process sp rawSignal detrendedSignal) in
  windowLength sp' = windowLength sp /\
  sampleRate sp' = sampleRate sp /\
  cardiacBandLow sp' = cardiacBandLow sp /\
  cardiacBandHigh sp' = cardiacBandHigh sp /\
  fftSize sp' = fftSize sp /\
  previousVariance sp' =
    variance (calculatePerfusionIndex rawSignal detrendedSignal) /\
  qualityFrameCount sp' =
    (qualityFrameCount sp
     + if goodQuality metrics then windowLength sp else 0)%nat /\
  QualityMetrics.qualityFrameCount metrics = qualityFrameCount sp'.
Proof.
  intros _. unfold process, goodQuality.
  set (v := variance (calculatePerfusionIndex rawSignal detrendedSignal)).
  assert (Hst : snd (calculateStability sp v) = set_previousVariance sp v)
    by (unfold calculateStability;
        destruct (strict_eq (previousVariance sp) 0); reflexivity).
  destruct (calculateStability sp v) as [stability sp1].
  cbn [snd] in Hst. subst sp1.
  cbn [fst snd QualityMetrics.qualityStatus QualityMetrics.qualityFrameCount].
  rewrite ge_5_is_good.
  destruct (getQualityStatus _);
    cbn [windowLength sampleRate cardiacBandLow cardiacBandHigh fftSize
         previousVariance qualityFrameCount
         set_previousVariance set_qualityFrameCount];
    repeat split; lia.
Qed.

Lemma process_updates_state_witness :
  fftAccepts (fftSize Fixture.processor) = true /\
  fftSize
    (snd (process (RT := Fixture.runtime) Fixture.processor
            [0.5; 0.5; 0.5; 0.5] [1; 0; -1; 0])) = 4%nat /\
  previousVariance
    (snd (process (RT := Fixture.runtime) Fixture.processor
            [0.5; 0.5; 0.5; 0.5] [1; 0; -1; 0])) = 0.5.
Proof.
  pose proof (process_updates_state (RT := Fixture.runtime) Fixture.processor
                [0.5; 0.5; 0.5; 0.5] [1; 0; -1; 0] eq_refl)
    as (_ & _ & _ & _ & Hfft & Hvar & _).
  exact (conj eq_refl (conj Hfft Hvar)).
Defined.

Lemma processAll_cons {RT : Runtime} (sp : t)
    (rawSignal detrendedSignal : list number)
    (rest : list (list number * list number)) :
  processAll sp ((rawSignal, detrendedSignal) :: rest) =
  (fst (process sp rawSignal detrendedSignal)
     :: fst (processAll (snd (process sp rawSignal detrendedSignal)) rest),
   snd (processAll (snd (process sp rawSignal detrendedSignal)) rest)).
Proof.
  cbn [processAll].
  destruct (process sp rawSignal detrendedSignal) as [metrics sp1].
  cbn [fst snd].
  destruct (processAll sp1 rest) as [later sp2]. reflexivity.
Qed.

(** X12: Over any sequence of windows a processor whose [fftSize] the FFT
    accepts keeps its configuration, returns one record per window, and
    ends with a [qualityFrameCount] that is the initial one plus
    [windowLength] for every record that is Good or Excellent. *)
Theorem processAll_counts_good_windows {RT : Runtime}
    (sp : t) (windows : list (list number * list number)) :
  fftAccepts (fftSize sp) = true ->
  let records := fst (processAll sp windows) in
  let sp' := snd (processAll sp windows) in
  List.length records = List.length windows /\
  windowLength sp' = windowLength sp /\
  sampleRate sp' = sampleRate sp /\
  cardiacBandLow sp' = cardiacBandLow sp /\
  cardiacBandHigh sp' = cardiacBandHigh sp /\
  fftSize sp' = fftSize sp /\
  qualityFrameCount sp' =
    (qualityFrameCount sp
     + windowLength sp * List.length (filter goodQuality records))%nat.
Proof.
  intros _.
  revert sp. induction windows as [|[rawSignal detrendedSignal] rest IH];
    intros sp.
  - cbn. repeat split; lia.
  - rewrite processAll_cons. cbn [fst snd List.length filter].
    destruct (IH (snd (process sp rawSignal detrendedSignal)))
      as (Hl & Hw & Hs & Hlo & Hhi & Hf & Hq).
    pose proof (process_new_state sp rawSignal detrendedSignal) as Hnew.
    cbv zeta in *.
    rewrite Hl, Hw, Hs, Hlo, Hhi, Hf, Hq, Hnew.
    cbn [windowLength sampleRate cardiacBandLow cardiacBandHigh fftSize
         qualityFrameCount].
    destruct (goodQuality (fst (process sp rawSignal detrendedSignal)));
      cbn [List.length]; repeat split; lia.
Qed.

Lemma processAll_counts_good_windows_witness :
  fftAccepts (fftSize Fixture.processor) = true /\
  List.length
    (fst (processAll (RT := Fixture.runtime) Fixture.processor
            [([0.5; 0.5; 0.5; 0.5], [1; 0; -1; 0]);
             ([0.5; 0.5; 0.5; 0.5], [0; 0; 0; 0])])) = 2%nat.
Proof.
  pose proof (processAll_counts_good_windows (RT := Fixture.runtime)
                Fixture.processor
                [([0.5; 0.5; 0.5; 0.5], [1; 0; -1; 0]);
                 ([0.5; 0.5; 0.5; 0.5], [0; 0; 0; 0])] eq_refl)
    as (Hlen & _).
  exact (conj eq_refl Hlen).
Defined.

Lemma processAll_keeps_configuration {RT : Runtime}
    (sp : t) (windows : list (list number * list number)) :
  let sp' := snd (processAll sp windows) in
  windowLength sp' = windowLength sp /\
  sampleRate sp' = sampleRate sp /\
  cardiacBandLow sp' = cardiacBandLow sp /\
  cardiacBandHigh sp' = cardiacBandHigh sp /\
  fftSize sp' = fftSize sp.
Proof.
  revert sp. induction windows as [|[rawSignal detrendedSignal] rest IH];
    intros sp; [now repeat split|].
  rewrite processAll_cons. cbn [snd].
  destruct (IH (snd (process sp rawSignal detrendedSignal)))
    as (Hw & Hs & Hlo & Hhi & Hf).
  cbv zeta in *. rewrite Hw, Hs, Hlo, Hhi, Hf, process_new_state.
  now repeat split.
Qed.

(** X13: [reset] after any number of windows gives back the processor as it was
    constructed, and the first window processed after a [reset] has
    [signalStability] [1.0]. *)
Theorem reset_restores_constructed_state {RT : Runtime}
    (options : Options) (windows : list (list number * list number))
    (sp : t) (rawSignal detrendedSignal : list number) :
  reset (snd (processAll (constructor options) windows))
    = constructor options /\
  reset (reset sp) = reset sp /\
  QualityMetrics.signalStability
    (fst (process (reset sp) rawSignal detrendedSignal)) = 1.
Proof.
  split; [|split].
  - destruct (processAll_keeps_configuration (constructor options) windows)
      as (Hw & Hs & Hlo & Hhi & Hf).
    cbv zeta in *.
    destruct (snd (processAll (constructor options) windows)).
    cbn [windowLength sampleRate cardiacBandLow cardiacBandHigh fftSize] in *.
    unfold reset, set_qualityFrameCount, set_previousVariance.
    cbn [windowLength sampleRate cardiacBandLow cardiacBandHigh fftSize
         previousVariance qualityFrameCount].
    subst. reflexivity.
  - reflexivity.
  - unfold process.
    assert (Hst : fst (calculateStability (reset sp)
                         (variance (calculatePerfusionIndex rawSignal
                                      detrendedSignal))) = 1)
      by reflexivity.
    destruct (calculateStability (reset sp) _) as [stability sp1].
    cbn [fst] in Hst. subst stability. reflexivity.
Qed.

Lemma Math_min_comm (a b : number) : Math_min a b = Math_min b a.
Proof.
  unfold Math_min.
  destruct (PrimFloat.is_nan a) eqn:Ha.
  { rewrite (is_nan_eq a Ha). destruct (PrimFloat.is_nan b) eqn:Hb;
      [now rewrite (is_nan_eq b Hb) | reflexivity]. }
  destruct (PrimFloat.is_nan b) eqn:Hb; [reflexivity|].
  destruct (a <? b) eqn:Hab.
  { now rewrite (FloatTotal.ltb_asym a b Hab). }
  destruct (b <? a) eqn:Hba; [reflexivity|].
  destruct (FloatTotal.eqb_cases a b
              (FloatTotal.not_ltb_eqb a b Ha Hb Hab Hba))
    as [-> | [[-> | ->] [-> | ->]]]; reflexivity.
Qed.

Lemma Math_max_comm (a b : number) : Math_max a b = Math_max b a.
Proof.
  unfold Math_max.
  destruct (PrimFloat.is_nan a) eqn:Ha.
  { rewrite (is_nan_eq a Ha). destruct (PrimFloat.is_nan b) eqn:Hb;
      [now rewrite (is_nan_eq b Hb) | reflexivity]. }
  destruct (PrimFloat.is_nan b) eqn:Hb; [reflexivity|].
  destruct (a <? b) eqn:Hab.
  { now rewrite (FloatTotal.ltb_asym a b Hab). }
  destruct (b <? a) eqn:Hba; [reflexivity|].
  destruct (FloatTotal.eqb_cases a b
              (FloatTotal.not_ltb_eqb a b Ha Hb Hab Hba))
    as [-> | [[-> | ->] [-> | ->]]]; reflexivity.
Qed.

(** X14: The stability ratio of two consecutive windows does not depend on
    which of the two came first: with neither variance zero, going from [a]
    to [b] gives the ratio that going from [b] to [a] gives. *)
Theorem stability_is_symmetric (sp : t) (a b : number) :
  strict_eq a 0 = false -> strict_eq b 0 = false ->
  fst (calculateStability (set_previousVariance sp a) b) =
  fst (calculateStability (set_previousVariance sp b) a).
Proof.
  intros Ha Hb. unfold calculateStability.
  cbn [previousVariance set_previousVariance]. rewrite Ha, Hb.
  cbn [fst]. now rewrite Math_min_comm, Math_max_comm.
Qed.

Lemma stability_is_symmetric_witness :
  strict_eq 2 0 = false /\ strict_eq 8 0 = false /\
  fst (calculateStability (set_previousVariance (constructor noOptions) 2) 8) =
  fst (calculateStability (set_previousVariance (constructor noOptions) 8) 2).
Proof.
  exact (conj eq_refl (conj eq_refl
           (stability_is_symmetric (constructor noOptions) 2 8
              eq_refl eq_refl))).
Defined.

End ProcessorState.

(** ** Runs of the frame loop *)
Section FrameLoop.
Import PPGMonitor.

Lemma run_cons {RT : Runtime} (m : t) (x : number) (rest : list number) :
  run m (x :: rest) =
  (fst (run (fst (computeFrame m x)) rest),
   snd (computeFrame m x) ++ snd (run (fst (computeFrame m x)) rest)).
Proof.
  cbn [run]. destruct (computeFrame m x) as [m1 e1]. cbn [fst snd].
  destruct (run m1 rest) as [m2 e2]. reflexivity.
Qed.

Lemma run_app {RT : Runtime} (m : t) (xs ys : list number) :
  run m (xs ++ ys) =
  (fst (run (fst (run m xs)) ys),
   snd (run m xs) ++ snd (run (fst (run m xs)) ys)).
Proof.
  revert m. induction xs as [|x xs IH]; intros m.
  - cbn [app run fst snd]. now destruct (run m ys).
  - cbn [app]. rewrite !run_cons, IH. cbn [fst snd].
    now rewrite app_assoc.
Qed.

(** What one frame does to the counters, the window length and the raw
    buffer. *)
Lemma computeFrame_counters {RT : Runtime} (m : t) (x : number) :
  let m' := fst (computeFrame m x) in
  nFrame m' = S (nFrame m) /\
  windowLength m' = windowLength m /\
  frameCount m' = (if DURATION <? nFrame m then S (frameCount m)
                   else frameCount m) /\
  acdc m' = (if DURATION <? nFrame m
             then store (acdc m) (nFrame m mod windowLength m) x
             else acdc m).
Proof.
  unfold computeFrame.
  destruct (DURATION <? nFrame m); [|cbn; auto].
  destruct (if nFrame m mod windowLength m =? 0 then _ else _)
    as [[[[[s a] w] q] p] e].
  cbn. auto.
Qed.

(** The callbacks of one frame: none during the warm-up; afterwards at most
    one quality update, then one signal update and one frame callback that
    carries the frame count. *)
Lemma computeFrame_callbacks {RT : Runtime} (m : t) (x : number) :
  let events := snd (computeFrame m x) in
  frameCounts events =
    (if DURATION <? nFrame m then [frameCount m] else []) /\
  List.length (filter isSignalUpdate events) =
    (if DURATION <? nFrame m then 1 else 0).
Proof.
  unfold computeFrame.
  destruct (DURATION <? nFrame m); [|cbn; auto].
  assert (Hq : forall acdc', filter isSignalUpdate
                 (snd (windowBoundary m acdc')) = [] /\
               frameCounts (snd (windowBoundary m acdc')) = []).
  { intros acdc'. unfold windowBoundary.
    destruct (processingWindow _); [|cbn; auto].
    destruct (SignalProcessor.process _ _ _). cbn. auto. }
  destruct (nFrame m mod windowLength m =? 0).
  - specialize (Hq (store (acdc m) (nFrame m mod windowLength m) x)).
    destruct (windowBoundary m _) as [[[[[s a] w] q] p] e].
    cbn [fst snd] in *. destruct Hq as [Hs Hf].
    unfold frameCounts in *. rewrite flat_map_app, filter_app, Hs, Hf.
    cbn. auto.
  - cbn. auto.
Qed.

Lemma run_advances {RT : Runtime} (m : t) (xs : list number) :
  nFrame (fst (run m xs)) = nFrame m + List.length xs /\
  windowLength (fst (run m xs)) = windowLength m.
Proof.
  revert m. induction xs as [|x xs IH]; intros m.
  - cbn [run fst List.length]. split; lia.
  - rewrite run_cons. cbn [fst List.length].
    destruct (IH (fst (computeFrame m x))) as [Hn Hw].
    destruct (computeFrame_counters m x) as (Cn & Cw & _).
    cbv zeta in *. rewrite Hn, Hw, Cn, Cw. split; lia.
Qed.

(** X16: Over any run of the frame loop of a monitor whose processor has an
    [fftSize] the FFT accepts, the frame index advances by one per call and
    [frameCount] by one per call made after the 101 warm-up frames; each of
    those calls makes exactly one signal update and one frame callback, and
    the frame callbacks carry consecutive frame counts. *)
Theorem run_counts_frames {RT : Runtime} (m : t) (xs : list number) :
  fftAccepts (SignalProcessor.fftSize (signalProcessor m)) = true ->
  let m' := fst (run m xs) in
  let events := snd (run m xs) in
  nFrame m' = nFrame m + List.length xs /\
  windowLength m' = windowLength m /\
  frameCount m' =
    frameCount m + (Nat.max (nFrame m') 101 - Nat.max (nFrame m) 101) /\
  frameCounts events = seq (frameCount m) (frameCount m' - frameCount m) /\
  List.length (filter isSignalUpdate events) = frameCount m' - frameCount m.
Proof.
  intros _.
  revert m. induction xs as [|x xs IH]; intros m.
  - cbn [run fst snd List.length filter].
    replace (frameCount m - frameCount m) with 0 by lia.
    cbn. repeat split; lia.
  - rewrite run_cons. cbn [fst snd List.length].
    destruct (IH (fst (computeFrame m x))) as (Hn & Hw & Hc & Hf & Hs).
    destruct (computeFrame_counters m x) as (Cn & Cw & Cc & _).
    destruct (computeFrame_callbacks m x) as (Cf & Cs).
    cbv zeta in *.
    set (m1 := fst (computeFrame m x)) in *.
    set (m' := fst (run m1 xs)) in *.
    unfold frameCounts in *.
    rewrite flat_map_app, filter_app, length_app, Hf, Hs, Cf, Cs.
    unfold DURATION in *.
    destruct (Nat.ltb_spec 100 (nFrame m)) as [Hpast | Hwarm].
    + assert (Hfc : frameCount m' = S (frameCount m + List.length xs))
        by lia.
      repeat split; try lia.
      rewrite Cc.
      replace (frameCount m' - frameCount m)
        with (S (frameCount m' - S (frameCount m))) by lia.
      reflexivity.
    + rewrite Cc. cbn [app List.length]. repeat split; lia.
Qed.

Lemma run_counts_frames_witness :
  fftAccepts
    (SignalProcessor.fftSize (signalProcessor (Fixture.monitorAt 99))) = true /\
  nFrame (fst (run (RT := Fixture.runtime) (Fixture.monitorAt 99)
                 [0.5; 0.25; 0.5; 0.25; 0.5; 0.25]%float)) = 105 /\
  frameCount (fst (run (RT := Fixture.runtime) (Fixture.monitorAt 99)
                     [0.5; 0.25; 0.5; 0.25; 0.5; 0.25]%float)) = 4.
Proof.
  pose proof (run_counts_frames (RT := Fixture.runtime) (Fixture.monitorAt 99)
                [0.5; 0.25; 0.5; 0.25; 0.5; 0.25]%float eq_refl)
    as (Hn & _ & Hc & _).
  exact (conj eq_refl (conj Hn Hc)).
Defined.

Lemma detrend_length_float (y : list number) :
  List.length (Detrend.detrend y) = List.length y.
Proof. unfold Detrend.detrend. now rewrite length_map, length_seq. Qed.

(** What one frame past the warm-up leaves in [ac], [acWindow], [isSignal]
    and [acFrame]. *)
Lemma computeFrame_ac {RT : Runtime} (m : t) (x : number) :
  DURATION < nFrame m ->
  let acdc' := store (acdc m) (nFrame m mod windowLength m) x in
  let m' := fst (computeFrame m x) in
  (nFrame m mod windowLength m = 0 ->
   processingWindow (nFrame m / windowLength m) = true ->
   ac m' = Float32Array_from (Detrend.detrend acdc') /\
   acWindow m' = windowMean (ac m') /\ isSignal m' = 1) /\
  (nFrame m mod windowLength m = 0 ->
   processingWindow (nFrame m / windowLength m) = false ->
   ac m' = Float32Array_fill (windowLength m) (acWindow m) /\
   acWindow m' = acWindow m /\ isSignal m' = 0) /\
  (nFrame m mod windowLength m <> 0 ->
   ac m' = ac m /\ acWindow m' = acWindow m /\ isSignal m' = isSignal m) /\
  acFrame m' = nth (nFrame m mod windowLength m) (ac m') NaN.
Proof.
  intros Hwarm. apply Nat.ltb_lt in Hwarm.
  unfold computeFrame. rewrite Hwarm. cbv zeta.
  destruct (nFrame m mod windowLength m =? 0) eqn:Hb.
  - apply Nat.eqb_eq in Hb. unfold windowBoundary.
    destruct (processingWindow (nFrame m / windowLength m)).
    + destruct (SignalProcessor.process _ _ _) as [metrics sp'].
      cbn [fst ac acWindow isSignal acFrame].
      repeat split; try discriminate; congruence.
    + cbn [fst ac acWindow isSignal acFrame].
      repeat split; try discriminate; congruence.
  - apply Nat.eqb_neq in Hb. cbn [fst ac acWindow isSignal acFrame].
    repeat split; congruence.
Qed.

(** X17: The two buffers keep the length [windowLength] over any run. *)
Theorem run_keeps_buffer_lengths {RT : Runtime} (m : t) (xs : list number) :
  List.length (acdc m) = windowLength m ->
  List.length (ac m) = windowLength m ->
  List.length (acdc (fst (run m xs))) = windowLength m /\
  List.length (ac (fst (run m xs))) = windowLength m.
Proof.
  revert m. induction xs as [|x xs IH]; intros m Hacdc Hac; [now split|].
  rewrite run_cons. cbn [fst].
  destruct (computeFrame_counters m x) as (_ & Cw & _ & Ca).
  cbv zeta in *.
  assert (Hacdc1 : List.length (acdc (fst (computeFrame m x)))
                   = windowLength m).
  { rewrite Ca. destruct (DURATION <? nFrame m); [|exact Hacdc].
    now rewrite store_length. }
  assert (Hac1 : List.length (ac (fst (computeFrame m x)))
                 = windowLength m).
  { destruct (Nat.ltb_spec DURATION (nFrame m)) as [Hpast | Hwarm].
    - destruct (computeFrame_ac m x Hpast) as (Hact & Hhold & Hkeep & _).
      destruct (Nat.eq_dec (nFrame m mod windowLength m) 0) as [Hb | Hb].
      + destruct (processingWindow (nFrame m / windowLength m)) eqn:Hp.
        * destruct (Hact Hb eq_refl) as [-> _].
          unfold Float32Array_from.
          now rewrite length_map, detrend_length_float, store_length.
        * destruct (Hhold Hb eq_refl) as [-> _].
          unfold Float32Array_fill. apply repeat_length.
      + destruct (Hkeep Hb) as [-> _]. exact Hac.
    - unfold computeFrame.
      apply Nat.ltb_ge in Hwarm. rewrite Hwarm. exact Hac. }
  rewrite <- Cw in Hacdc1, Hac1.
  destruct (IH _ Hacdc1 Hac1) as [H1 H2].
  rewrite H1, H2. now rewrite Cw.
Qed.

Lemma run_keeps_buffer_lengths_witness :
  List.length (acdc (Fixture.monitorAt 104))
    = windowLength (Fixture.monitorAt 104) /\
  List.length (ac (Fixture.monitorAt 104))
    = windowLength (Fixture.monitorAt 104) /\
  List.length
    (ac (fst (run (RT := Fixture.runtime) (Fixture.monitorAt 104)
                [0.5; 0.25; 0.75; 0.5; 0.125]%float))) = 4.
Proof.
  exact (conj eq_refl (conj eq_refl
           (proj2 (run_keeps_buffer_lengths (RT := Fixture.runtime)
                     (Fixture.monitorAt 104)
                     [0.5; 0.25; 0.75; 0.5; 0.125]%float
                     eq_refl eq_refl)))).
Defined.

Lemma store_split (a : list number) (p : nat) (x : number) :
  p < List.length a ->
  store a p x = firstn p a ++ Math_fround x :: skipn (S p) a.
Proof.
  revert p. induction a as [|h t IH]; intros p Hp; [cbn in Hp; lia|].
  destruct p as [|p]; [reflexivity|].
  cbn [List.length] in Hp. cbn [store firstn skipn app].
  now rewrite IH by lia.
Qed.

Lemma firstn_store (a : list number) (p : nat) (x : number) :
  p < List.length a ->
  firstn (S p) (store a p x) = firstn p a ++ [Math_fround x].
Proof.
  revert p. induction a as [|h t IH]; intros p Hp; [cbn in Hp; lia|].
  destruct p as [|p]; [reflexivity|].
  cbn [List.length] in Hp. cbn [store].
  rewrite !firstn_cons, IH by lia. reflexivity.
Qed.

Lemma skipn_store (a : list number) (p k : nat) (x : number) :
  p < k -> skipn k (store a p x) = skipn k a.
Proof.
  revert p k. induction a as [|h t IH]; intros p k Hp.
  - now destruct k.
  - destruct k as [|k]; [lia|]. destruct p as [|p]; [reflexivity|].
    cbn [store skipn]. apply IH. lia.
Qed.

Lemma mod_succ (n w p : nat) :
  n mod w = p -> S p < w -> S n mod w = S p.
Proof.
  intros Hn Hp. symmetry.
  apply (Nat.mod_unique (S n) w (n / w) (S p) Hp).
  pose proof (Nat.div_mod_eq n w). lia.
Qed.

(** Samples that arrive between two boundaries are stored one after the
    other from the cursor on. *)
Lemma run_stores_in_order {RT : Runtime} (xs : list number) :
  forall (m : t) (p : nat),
  DURATION < nFrame m ->
  List.length (acdc m) = windowLength m ->
  nFrame m mod windowLength m = p ->
  p + List.length xs <= windowLength m ->
  acdc (fst (run m xs)) =
    firstn p (acdc m) ++ Float32Array_from xs
    ++ skipn (p + List.length xs) (acdc m).
Proof.
  induction xs as [|x rest IH]; intros m p Hwarm Hlen Hp Hfit.
  - cbn [run fst List.length Float32Array_from map app].
    rewrite Nat.add_0_r. symmetry. apply firstn_skipn.
  - rewrite run_cons. cbn [fst].
    destruct (computeFrame_counters m x) as (Cn & Cw & _ & Ca).
    cbv zeta in *. cbn [List.length] in Hfit.
    rewrite (proj2 (Nat.ltb_lt _ _) Hwarm), Hp in Ca.
    destruct rest as [|x2 rest'].
    + cbn [run fst]. rewrite Ca, store_split by lia.
      cbn [Float32Array_from map List.length app].
      now rewrite Nat.add_1_r.
    + rewrite (IH (fst (computeFrame m x)) (S p)).
      * rewrite Ca, firstn_store, skipn_store by lia.
        cbn [Float32Array_from map].
        rewrite <- app_assoc. cbn [app].
        replace (p + List.length (x :: x2 :: rest'))
          with (S p + List.length (x2 :: rest'))
          by (cbn [List.length]; lia).
        reflexivity.
      * unfold DURATION in *. lia.
      * now rewrite Ca, store_length, Cw.
      * rewrite Cn, Cw. apply mod_succ; [exact Hp|].
        cbn [List.length] in Hfit. lia.
      * rewrite Cw. cbn [List.length] in *. lia.
Qed.

(** X18: The window that is processed at a boundary holds the sample of the
    boundary frame first, followed by the [windowLength - 1] samples that
    came before it, oldest first: after the frames [xs] and the boundary
    frame [x], the raw buffer is [x :: xs] (in single precision), and on a
    processing boundary [ac] is the detrended form of that buffer. *)
Theorem window_at_boundary {RT : Runtime}
    (m : t) (xs : list number) (x : number) (q : nat) :
  2 <= windowLength m ->
  DURATION < nFrame m ->
  nFrame m = q * windowLength m + 1 ->
  List.length (acdc m) = windowLength m ->
  List.length xs = windowLength m - 1 ->
  let m' := fst (run m (xs ++ [x])) in
  nFrame m' = (q + 1) * windowLength m + 1 /\
  acdc m' = Float32Array_from (x :: xs) /\
  (processingWindow (q + 1) = true ->
   ac m' = Float32Array_from (Detrend.detrend (Float32Array_from (x :: xs)))).
Proof.
  intros Hw Hwarm Hn Hlen Hxs. cbv zeta.
  set (w := windowLength m) in *.
  assert (Hmod : nFrame m mod w = 1).
  { symmetry. apply (Nat.mod_unique (nFrame m) w q 1); lia. }
  rewrite run_app. cbn [fst].
  pose proof (run_stores_in_order xs m 1 Hwarm Hlen Hmod ltac:(lia)) as Hbuf.
  destruct (run_advances m xs) as (Rn & Rw).
  set (m1 := fst (run m xs)) in *.
  fold w in Rw.
  assert (Hn1 : nFrame m1 = (q + 1) * w) by lia.
  assert (Hmod1 : nFrame m1 mod w = 0)
    by (rewrite Hn1; apply Nat.Div0.mod_mul).
  assert (Hdiv1 : nFrame m1 / w = q + 1)
    by (rewrite Hn1; apply Nat.div_mul; lia).
  assert (Hwarm1 : DURATION < nFrame m1) by (unfold DURATION in *; lia).
  rewrite run_cons. cbn [run fst].
  destruct (computeFrame_counters m1 x) as (Cn & _ & _ & Ca).
  destruct (computeFrame_ac m1 x Hwarm1) as (Hact & _).
  cbv zeta in *.
  rewrite (proj2 (Nat.ltb_lt _ _) Hwarm1), Rw, Hmod1 in Ca.
  assert (Hacdc : acdc (fst (computeFrame m1 x))
                  = Float32Array_from (x :: xs)).
  { rewrite Ca, Hbuf.
    rewrite skipn_all2 by lia. rewrite app_nil_r.
    destruct (acdc m) as [|a0 rest]; [cbn in Hlen; lia|].
    reflexivity. }
  split; [lia | split; [exact Hacdc|]].
  intros Hproc. rewrite Rw, Hmod1, Hdiv1 in Hact.
  destruct (Hact eq_refl Hproc) as [-> _].
  rewrite <- Hacdc, Ca. reflexivity.
Qed.

Lemma window_at_boundary_witness :
  2 <= windowLength (Fixture.monitorAt 105) /\
  nFrame (Fixture.monitorAt 105)
    = 26 * windowLength (Fixture.monitorAt 105) + 1 /\
  acdc (fst (run (RT := Fixture.runtime) (Fixture.monitorAt 105)
               ([0.25; 0.75; 0.125] ++ [1])%float))
    = Float32Array_from [1; 0.25; 0.75; 0.125]%float.
Proof.
  assert (H2 : 2 <= windowLength (Fixture.monitorAt 105)) by (cbn; lia).
  assert (Hd : DURATION < nFrame (Fixture.monitorAt 105))
    by (unfold DURATION; cbn; lia).
  pose proof (window_at_boundary (RT := Fixture.runtime)
                (Fixture.monitorAt 105) [0.25; 0.75; 0.125]%float 1%float 26
                H2 Hd eq_refl eq_refl eq_refl) as (_ & H & _).
  exact (conj H2 (conj eq_refl H)).
Defined.

Lemma no_quality_update_filter (events : list event) :
  (forall q, ~ In (QualityUpdate q) events) ->
  filter isQualityUpdate events = [].
Proof.
  induction events as [|e events IH]; intros H; [reflexivity|].
  cbn [filter]. destruct e as [q| |]; cbn [isQualityUpdate].
  - exfalso. apply (H q). now left.
  - apply IH. intros q Hq. apply (H q). now right.
  - apply IH. intros q Hq. apply (H q). now right.
Qed.

(** X19: With a window length of [0] no frame is ever a window boundary
    ([nFrame % 0] is never [0]): over any run nothing is processed, no
    quality update is made, and the metrics, the processor and the phase
    stay as they were. *)
Theorem run_with_empty_window_never_processes {RT : Runtime}
    (m : t) (xs : list number) :
  windowLength m = 0 ->
  filter isQualityUpdate (snd (run m xs)) = [] /\
  currentMetrics (fst (run m xs)) = currentMetrics m /\
  signalProcessor (fst (run m xs)) = signalProcessor m /\
  schedulerState (fst (run m xs)) = schedulerState m.
Proof.
  revert m. induction xs as [|x xs IH]; intros m Hw; [now repeat split|].
  rewrite run_cons. cbn [fst snd].
  assert (Hcase : nFrame m <= DURATION \/ nFrame m mod windowLength m <> 0).
  { rewrite Hw. cbn [Nat.modulo]. unfold DURATION.
    destruct (Nat.le_gt_cases (nFrame m) 100); [now left | right; lia]. }
  destruct (phase_kept_between_boundaries m x Hcase) as (Hs & Hc & Hp & Hq).
  destruct (computeFrame_counters m x) as (_ & Cw & _).
  cbv zeta in Cw. rewrite Hw in Cw.
  destruct (IH _ Cw) as (Iq & Ic & Ip & Is).
  rewrite filter_app, Iq, Ic, Ip, Is, Hs, Hc, Hp.
  rewrite (no_quality_update_filter _ Hq). now repeat split.
Qed.

Lemma run_with_empty_window_never_processes_witness :
  let m := {| windowLength := 0;
              signalProcessor := Fixture.processor;
              acdc := []; ac := [];
              frameCount := 0; nFrame := 0; isSignal := 0;
              acFrame := 0.008%float; acWindow := 0.008%float;
              currentMetrics := Fixture.startMetrics |} in
  windowLength m = 0 /\
  filter isQualityUpdate
    (snd (run (RT := Fixture.runtime) m (repeat 0.5%float 300))) = [].
Proof.
  intros m.
  exact (conj eq_refl
           (proj1 (run_with_empty_window_never_processes
                     (RT := Fixture.runtime) m (repeat 0.5%float 300)
                     eq_refl))).
Defined.

(** X20: While the output is held the streamed sample is constant: on a Hold
    boundary, and on every later frame up to the next boundary, [ac] is
    filled with the window mean kept in [acWindow] and the streamed [acFrame]
    is that mean (in single precision). *)
Theorem hold_streams_window_mean {RT : Runtime} (m : t) (x : number) :
  DURATION < nFrame m ->
  0 < windowLength m ->
  (nFrame m mod windowLength m = 0 /\
   processingWindow (nFrame m / windowLength m) = false) \/
  (nFrame m mod windowLength m <> 0 /\
   ac m = Float32Array_fill (windowLength m) (acWindow m)) ->
  let m' := fst (computeFrame m x) in
  ac m' = Float32Array_fill (windowLength m') (acWindow m') /\
  acWindow m' = acWindow m /\
  acFrame m' = Math_fround (acWindow m).
Proof.
  intros Hwarm Hw Hcase. cbv zeta.
  destruct (computeFrame_ac m x Hwarm) as (_ & Hhold & Hkeep & Hframe).
  destruct (computeFrame_counters m x) as (_ & Cw & _).
  cbv zeta in *.
  assert (Hac : ac (fst (computeFrame m x))
                = Float32Array_fill (windowLength m) (acWindow m) /\
                acWindow (fst (computeFrame m x)) = acWindow m).
  { destruct Hcase as [[Hb Hp] | [Hb Hfill]].
    - destruct (Hhold Hb Hp) as (H1 & H2 & _). now split.
    - destruct (Hkeep Hb) as (H1 & H2 & _). rewrite H1, H2. now split. }
  destruct Hac as [Hac Hwin].
  rewrite Hframe, Cw, Hwin, Hac. repeat split.
  unfold Float32Array_fill. apply nth_repeat_lt.
  apply Nat.mod_upper_bound. lia.
Qed.

Lemma hold_streams_window_mean_witness :
  DURATION < nFrame (Fixture.monitorAt 400) /\
  0 < windowLength (Fixture.monitorAt 400) /\
  processingWindow (nFrame (Fixture.monitorAt 400)
                    / windowLength (Fixture.monitorAt 400)) = false /\
  acFrame (fst (computeFrame (RT := Fixture.runtime)
                  (Fixture.monitorAt 400) 0.5%float))
    = Math_fround 0.008%float.
Proof.
  assert (Hd : DURATION < nFrame (Fixture.monitorAt 400))
    by (unfold DURATION; cbn; lia).
  assert (Hw : 0 < windowLength (Fixture.monitorAt 400)) by (cbn; lia).
  pose proof (hold_streams_window_mean (RT := Fixture.runtime)
                (Fixture.monitorAt 400) 0.5%float Hd Hw
                (or_introl (conj eq_refl eq_refl))) as (_ & _ & H).
  exact (conj Hd (conj Hw (conj eq_refl H))).
Defined.

End FrameLoop.

(** ** The monitor options *)
Section OptionDefaults.
Import Defaults.
Context {Handler : Type}.

(** X22: Options in which every property is present pass through
    [createDefaultOptions] unchanged; in particular merging the result of a
    merge again changes nothing. *)
Theorem createDefaultOptions_keeps_complete_options
    (o : Options Handler) (u : UserOptions Handler) :
  createDefaultOptions (asGiven o) = o /\
  createDefaultOptions (asGiven (createDefaultOptions u))
    = createDefaultOptions u.
Proof.
  assert (H : forall o' : Options Handler,
            createDefaultOptions (asGiven o') = o').
  { intros [[e v mt c th] [w r lo hi f] [mw mh fr fm] a b c' d e'].
    reflexivity. }
  split; apply H.
Qed.

(** X21: The defaults of the two files agree: the processor that the monitor
    builds from the merged options is the processor built from the signal
    options the caller gave.  Its [windowLength] is the merged one, by which
    the monitor sizes its buffers, unless that is [0]: then the processor
    counts in windows of 300 samples. *)
Theorem monitor_processor_from_merged_options (u : UserOptions Handler) :
  monitorProcessor u =
    SignalProcessor.constructor
      (match u_signal u with
       | Some given => given
       | None => SignalProcessor.noOptions
       end) /\
  SignalProcessor.windowLength (monitorProcessor u) =
    match windowLength (signal (createDefaultOptions u)) with
    | O => 300
    | S w => S w
    end.
Proof.
  unfold monitorProcessor, createDefaultOptions, SignalProcessor.constructor.
  cbn [signal windowLength sampleRate cardiacBandLow cardiacBandHigh fftSize
       SignalProcessor.o_windowLength SignalProcessor.o_sampleRate
       SignalProcessor.o_cardiacBandLow SignalProcessor.o_cardiacBandHigh
       SignalProcessor.o_fftSize SignalProcessor.windowLength].
  destruct (u_signal u) as [[w r lo hi f]|];
    cbn [SignalProcessor.o_windowLength SignalProcessor.o_sampleRate
         SignalProcessor.o_cardiacBandLow SignalProcessor.o_cardiacBandHigh
         SignalProcessor.o_fftSize SignalProcessor.noOptions].
  - split.
    + destruct w as [[|w]|], r as [r|], lo as [lo|], hi as [hi|],
        f as [[|f]|]; reflexivity.
    + destruct w as [[|w]|]; reflexivity.
  - split; reflexivity.
Qed.

End OptionDefaults.

(** ** Perfusion index and heart rate *)
Section Perfusion.
Import SignalProcessor.
Local Open Scope float_scope.

Lemma fold_left_over_map {A B C : Type} (g : A -> C -> A) (h : B -> C)
    (l : list B) (a : A) :
  fold_left g (map h l) a = fold_left (fun s x => g s (h x)) l a.
Proof.
  revert a. induction l as [|x l IH]; intros a; [reflexivity|].
  cbn [map fold_left]. apply IH.
Qed.

(** A loop over the indices of an array reads its elements in order. *)
Lemma fold_left_nth_seq (f : number -> number) (l : list number)
    (start : number) :
  fold_left (fun s i => s + f (nth i l NaN)) (seq 0 (List.length l)) start =
  fold_left (fun s v => s + f v) l start.
Proof.
  revert start. induction l as [|h t IH]; intros start; [reflexivity|].
  cbn [List.length seq fold_left nth].
  rewrite <- seq_shift, fold_left_over_map. cbn [nth]. apply IH.
Qed.

(** X10: The DC level of the perfusion index is [windowMean] of the raw window
    and, for windows of the same length, the variance is [windowMean] of
    the squared detrended samples; the index is
    [sqrt(variance) / (dc + 1e-10) * 100].  On an empty raw window both
    results are NaN. *)
Theorem perfusion_index_from_window_means
    (rawSignal detrendedSignal : list number) :
  List.length detrendedSignal = List.length rawSignal ->
  let r := calculatePerfusionIndex rawSignal detrendedSignal in
  variance r = windowMean (map (fun d => d * d) detrendedSignal) /\
  pi r = PrimFloat.sqrt (variance r) / (windowMean rawSignal + 1e-10) * 100 /\
  variance (calculatePerfusionIndex [] detrendedSignal) = NaN /\
  pi (calculatePerfusionIndex [] detrendedSignal) = NaN.
Proof.
  intros Hlen. cbv zeta.
  unfold calculatePerfusionIndex, windowMean, sum_numbers.
  cbn [variance pi].
  rewrite (fold_left_nth_seq (fun v => v) rawSignal 0).
  rewrite <- Hlen.
  rewrite (fold_left_nth_seq (fun d => d * d) detrendedSignal 0).
  rewrite fold_left_over_map, length_map.
  repeat split.
Qed.

Lemma perfusion_index_from_window_means_witness :
  List.length [1; -1; 1; -1] = List.length [2; 1; 3; 2] /\
  variance (calculatePerfusionIndex [2; 1; 3; 2] [1; -1; 1; -1])
    = windowMean (map (fun d => d * d) [1; -1; 1; -1]).
Proof.
  exact (conj eq_refl
           (proj1 (perfusion_index_from_window_means
                     [2; 1; 3; 2] [1; -1; 1; -1] eq_refl))).
Defined.

(** X15: When no bin of the band holds a power above [0], [process] reports no
    peak: the emitted heart rate is not positive and the emitted [ibi] is
    [0]. *)
Theorem silent_band_gives_no_heart_rate {RT : Runtime}
    (sp : t) (rawSignal detrendedSignal : list number) :
  let f := Fft.computeFFT detrendedSignal (fftSize sp) (sampleRate sp) in
  let low := Math_floor (cardiacBandLow sp / Fft.freqResolution f) in
  let high := Math_ceil (cardiacBandHigh sp / Fft.freqResolution f) in
  let metrics := fst (process sp rawSignal detrendedSignal) in
  (forall j, In j (bandBins (Fft.psd f) low high) ->
     gt (nth j (Fft.psd f) NaN) 0 = false) ->
  gt (QualityMetrics.heartRate metrics) 0 = false /\
  QualityMetrics.ibi metrics = 0.
Proof.
  intros f low high metrics Hsilent.
  destruct (bandLoop_peak_invariant (Fft.psd f) low high
              (List.length (Fft.psd f) - 1)) as (_ & Hpeak & _).
  fold (Fft.bandLoop (Fft.psd f) low high) in Hpeak.
  assert (Hidx : Fft.b_peakIdx (Fft.bandLoop (Fft.psd f) low high) = 0%nat).
  { destruct Hpeak as [[Hz _] | (Hr & Hb & Hm & Hp)]; [exact Hz|].
    exfalso.
    assert (Hin : In (Fft.b_peakIdx (Fft.bandLoop (Fft.psd f) low high))
                    (bandBins (Fft.psd f) low high)).
    { unfold bandBins, spectrumBins. apply filter_In. split; [|exact Hb].
      apply in_seq. lia. }
    specialize (Hsilent _ Hin). unfold gt in Hsilent.
    rewrite <- Hm in Hsilent. congruence. }
  subst metrics. unfold process.
  destruct (calculateStability sp _) as [stability sp1].
  cbn [fst QualityMetrics.heartRate QualityMetrics.ibi].
  unfold Fft.calculateSNRFromPSD. cbn [Fft.peakFrequency].
  fold f. fold low. fold high. rewrite Hidx.
  change (of_nat 0) with 0.
  destruct (FloatFacts.mul_zero_l_cases (Fft.freqResolution f))
    as [-> | [-> | ->]]; split; reflexivity.
Qed.

Lemma silent_band_gives_no_heart_rate_witness :
  (forall j,
     In j (bandBins
             (Fft.psd (Fft.computeFFT (RT := Fixture.runtime)
                         [0; 0; 0; 0] 4 4.5))
             (Math_floor (0.75 / 1.125)) (Math_ceil (4 / 1.125))) ->
     gt (nth j (Fft.psd (Fft.computeFFT (RT := Fixture.runtime)
                           [0; 0; 0; 0] 4 4.5)) NaN) 0 = false) /\
  QualityMetrics.ibi
    (fst (process (RT := Fixture.runtime) Fixture.processor
            [0.5; 0.5; 0.5; 0.5] [0; 0; 0; 0])) = 0.
Proof.
  assert (H : forall j,
     In j (bandBins
             (Fft.psd (Fft.computeFFT (RT := Fixture.runtime)
                         [0; 0; 0; 0] 4 4.5))
             (Math_floor (0.75 / 1.125)) (Math_ceil (4 / 1.125))) ->
     gt (nth j (Fft.psd (Fft.computeFFT (RT := Fixture.runtime)
                           [0; 0; 0; 0] 4 4.5)) NaN) 0 = false).
  { intros j Hj. vm_compute in Hj. destruct Hj as [<- | []]. reflexivity. }
  exact (conj H
           (proj2 (silent_band_gives_no_heart_rate (RT := Fixture.runtime)
                     Fixture.processor [0.5; 0.5; 0.5; 0.5] [0; 0; 0; 0] H))).
Defined.

End Perfusion.

(** ** What the spectrum does not look at *)
Section SpectrumIgnores.
Import Fft.
Local Open Scope float_scope.

Lemma fold_left_agree {A B : Type} (g g' : A -> B -> A) (l : list B) (a : A) :
  (forall s x, In x l -> g s x = g' s x) ->
  fold_left g l a = fold_left g' l a.
Proof.
  revert a. induction l as [|x l IH]; intros a H; [reflexivity|].
  cbn [fold_left]. rewrite (H a x) by now left.
  apply IH. intros s y Hy. apply H. now right.
Qed.

(** X4: The DC bin never enters the result: two spectra that differ in bin 0
    only give the same SNR, powers and peak. *)
Theorem dc_bin_is_ignored {RT : Runtime}
    (dc dc' : number) (bins : list number)
    (freqRes cardiacBandLow cardiacBandHigh : number) :
  calculateSNRFromPSD (dc :: bins) freqRes cardiacBandLow cardiacBandHigh =
  calculateSNRFromPSD (dc' :: bins) freqRes cardiacBandLow cardiacBandHigh.
Proof.
  unfold calculateSNRFromPSD.
  assert (H : forall low high,
            bandLoop (dc :: bins) low high = bandLoop (dc' :: bins) low high).
  { intros low high. unfold bandLoop. cbn [List.length].
    apply fold_left_agree. intros b i Hi. apply in_seq in Hi.
    unfold bandStep. destruct i as [|i]; [lia | reflexivity]. }
  now rewrite H.
Qed.

(** X6: Samples beyond [fftSize] never reach the spectrum: a signal of at least
    [fftSize] samples and the same signal with more samples after it have
    the same [computeFFT] result. *)
Theorem computeFFT_ignores_samples_beyond_fftSize {RT : Runtime}
    (signal extra : list number) (size : nat) (rate : number) :
  (size <= List.length signal)%nat ->
  computeFFT (signal ++ extra) size rate = computeFFT signal size rate.
Proof.
  intros Hlen. unfold computeFFT.
  pose proof (padSignal_closed_form signal size) as Hs.
  pose proof (padSignal_closed_form (signal ++ extra) size) as He.
  rewrite He, Hs, length_app.
  rewrite firstn_app.
  replace (size - List.length signal)%nat with 0%nat by lia.
  replace (size - (List.length signal + List.length extra))%nat
    with 0%nat by lia.
  cbn [firstn]. now rewrite (app_nil_r (firstn size signal)).
Qed.

Lemma computeFFT_ignores_samples_beyond_fftSize_witness :
  (4 <= List.length [1; 0; -1; 0]%float)%nat /\
  computeFFT (RT := Fixture.runtime) ([1; 0; -1; 0] ++ [7; 7]) 4 4.5
  = computeFFT (RT := Fixture.runtime) [1; 0; -1; 0] 4 4.5.
Proof.
  assert (H : (4 <= List.length [1; 0; -1; 0]%float)%nat) by (cbn; lia).
  exact (conj H (computeFFT_ignores_samples_beyond_fftSize
                   (RT := Fixture.runtime) [1; 0; -1; 0] [7; 7] 4 4.5 H)).
Defined.

End SpectrumIgnores.

(** ** The status grows with the SNR *)
Section StatusOrder.
Local Open Scope float_scope.

(** X2: A larger SNR never has a worse status: from [a <= b], Excellent at [a]
    gives Excellent at [b], Good at [a] gives Good or Excellent at [b], and
    Fair at [a] gives anything but Poor at [b]. *)
Theorem getQualityStatus_monotone (a b : number) :
  le a b = true ->
  (getQualityStatus a = Excellent -> getQualityStatus b = Excellent) /\
  (getQualityStatus a = Good ->
   getQualityStatus b = Good \/ getQualityStatus b = Excellent) /\
  (getQualityStatus a = Fair -> getQualityStatus b <> Poor).
Proof.
  unfold le, getQualityStatus, ge. intros Hab.
  destruct (10 <=? a) eqn:Ha10.
  { rewrite (FloatTotal.leb_trans 10 a b Ha10 Hab).
    repeat split; discriminate. }
  destruct (5 <=? a) eqn:Ha5.
  { pose proof (FloatTotal.leb_trans 5 a b Ha5 Hab) as Hb5.
    rewrite Hb5. destruct (10 <=? b); repeat split; try discriminate; auto. }
  destruct (0 <=? a) eqn:Ha0.
  { pose proof (FloatTotal.leb_trans 0 a b Ha0 Hab) as Hb0.
    rewrite Hb0. destruct (10 <=? b), (5 <=? b);
      repeat split; discriminate. }
  repeat split; discriminate.
Qed.

Lemma getQualityStatus_monotone_witness :
  le 6 11 = true /\ getQualityStatus 6 = Good /\
  (getQualityStatus 11 = Good \/ getQualityStatus 11 = Excellent).
Proof.
  pose proof (getQualityStatus_monotone 6 11 eq_refl) as (_ & H & _).
  exact (conj eq_refl (conj eq_refl (H eq_refl))).
Defined.

End StatusOrder.

(** ** The schedule of processed and held windows *)
Section Schedule.
Import PPGMonitor.












End Schedule.
